(** * PigeonHub: the ESP32 sketch's [embed_wasm.py] build hook

    The hook is a PlatformIO/SCons extra script.  It reads the project
    directory from the construction environment, joins it with the file
    name of the pre-built WebAssembly client, asks the file system
    whether that path exists and then either appends linker and compile
    flags to the environment or prints a two-line warning.

    The script is embedded as a computation in a small state-and-exception
    monad over a [World]: the construction environment, the file system as
    seen by [os.stat], the console and the text written to it so far.
    Strings are sequences of characters with codes below 256. *)

From Stdlib Require Import Ascii String List Bool.
From stdpp Require Import base option list strings gmap fin_maps.

Local Open Scope string_scope.
Local Open Scope list_scope.

(** ** Characters named by their code *)

Definition dquote : ascii := "034"%char.
Definition squote : ascii := "039"%char.
Definition backslash : ascii := "092"%char.
Definition newline : ascii := "010"%char.
Definition tab : ascii := "009"%char.
Definition cr : ascii := "013"%char.
Definition space : ascii := "032"%char.
Definition dollar : ascii := "036"%char.

(** The line end [print] writes after its argument. *)
Definition nl : string := String newline EmptyString.

(** ** Python strings *)

Module PyStr.

(** [s.startswith(pre)] *)
Definition startswith (s pre : string) : bool := String.prefix pre s.

(** [s.endswith(suf)]: some tail of [s] equals [suf]. *)
Fixpoint endswith (s suf : string) : bool :=
  String.eqb s suf ||
  match s with
  | EmptyString => false
  | String _ r => endswith r suf
  end.

(** [not s] for a string: the empty string is falsy. *)
Definition is_empty (s : string) : bool :=
  match s with
  | EmptyString => true
  | String _ _ => false
  end.

(** The last character of [s], if there is one: [s[-1:]]. *)
Fixpoint last_char (s : string) : option ascii :=
  match s with
  | EmptyString => None
  | String c r =>
      match r with
      | EmptyString => Some c
      | String _ _ => last_char r
      end
  end.

(** [s[:n]] and [s[n:]] *)
Fixpoint take (n : nat) (s : string) : string :=
  match n, s with
  | S k, String c r => String c (take k r)
  | _, _ => EmptyString
  end.

Fixpoint drop (n : nat) (s : string) : string :=
  match n, s with
  | S k, String _ r => drop k r
  | _, _ => s
  end.

(** [s.lower()] for characters below 256: the letters A to Z and the
    accented capitals 192 to 222, the multiplication sign 215 apart. *)
Definition lower_char (c : ascii) : ascii :=
  let n := nat_of_ascii c in
  if ((65 <=? n)%nat && (n <=? 90)%nat)
     || ((192 <=? n)%nat && (n <=? 222)%nat && negb (n =? 215)%nat)
  then ascii_of_nat (n + 32) else c.

Fixpoint lower (s : string) : string :=
  match s with
  | EmptyString => EmptyString
  | String c r => String (lower_char c) (lower r)
  end.

(** [c.isspace()] for a character below 256: tab to carriage return,
    the four separators 28 to 31, the space, NEL and the no-break space. *)
Definition isspace (c : ascii) : bool :=
  let n := nat_of_ascii c in
  ((9 <=? n)%nat && (n <=? 13)%nat) || ((28 <=? n)%nat && (n <=? 32)%nat)
  || (n =? 133)%nat || (n =? 160)%nat.

End PyStr.

(** ** Characters of a string *)

(** Every character of [s] passes the test [p]. *)
Fixpoint all_chars (p : ascii -> bool) (s : string) : bool :=
  match s with
  | EmptyString => true
  | String c r => p c && all_chars p r
  end.

(** The character [c] occurs in [s]. *)
Definition has_char (c : ascii) (s : string) : bool :=
  negb (all_chars (fun x => negb (Ascii.eqb x c)) s).

(** The number of line ends in [s]. *)
Fixpoint line_count (s : string) : nat :=
  match s with
  | EmptyString => O
  | String c r => (if Ascii.eqb c newline then 1 else 0) + line_count r
  end.

(** ** [os.path]

    The script calls [os.path.join]; which module stands behind [os.path]
    depends on the platform the build runs on.  The hook is written
    against this interface. *)

Class OsPath := {
  os_path_join : string -> list string -> string
}.

(** [posixpath.join(a, *p)]:
<<
    path = a
    for b in p:
        if b.startswith(sep):   path = b
        elif not path or path.endswith(sep):   path += b
        else:   path += sep + b
    return path
>> *)
Definition posix_join_step (sep path b : string) : string :=
  if PyStr.startswith b sep then b
  else if PyStr.is_empty path || PyStr.endswith path sep then path +:+ b
  else path +:+ sep +:+ b.

Definition posix_join (a : string) (p : list string) : string :=
  fold_left (posix_join_step "/") p a.

#[export] Instance posixpath : OsPath := {|
  os_path_join := posix_join
|}.

(** [ntpath.join(path, *paths)] with [ntpath.splitdrive], as of
    CPython 3.11.  A path is split into a drive (a letter and a colon, or
    the two leading components of a UNC path) and the rest; a component
    that starts with a separator or names another drive starts over, any
    other component is added behind one separator. *)

Module NtPath.

Definition is_sep (c : ascii) : bool :=
  Ascii.eqb c backslash || Ascii.eqb c "/".

(** [normp.find(sep, start)], on the path itself: both separators count. *)
Fixpoint find_sep (start : nat) (s : string) : option nat :=
  match s with
  | EmptyString => None
  | String c r =>
      match start with
      | O => if is_sep c then Some O else option_map S (find_sep O r)
      | S k => option_map S (find_sep k r)
      end
  end.

Definition is_letter (lo up c : ascii) : bool :=
  Ascii.eqb c lo || Ascii.eqb c up.

(** [normp[:8].upper() == unc_prefix]: two separators, a question mark,
    a separator, the letters UNC in either case, a separator. *)
Definition has_unc_prefix (p : string) : bool :=
  match p with
  | String c0 (String c1 (String c2 (String c3 (String c4 (String c5
      (String c6 (String c7 _))))))) =>
      is_sep c0 && is_sep c1 && Ascii.eqb c2 "?" && is_sep c3
      && is_letter "u" "U" c4 && is_letter "n" "N" c5 && is_letter "c" "C" c6
      && is_sep c7
  | _ => false
  end.

Definition splitdrive (p : string) : string * string :=
  match p with
  | String c0 (String c1 _) =>
      if is_sep c0 && is_sep c1 then
        let start := if has_unc_prefix p then 8 else 2 in
        match find_sep start p with
        | None => (p, EmptyString)
        | Some index =>
            match find_sep (S index) p with
            | None => (p, EmptyString)
            | Some index2 => (PyStr.take index2 p, PyStr.drop index2 p)
            end
        end
      else if Ascii.eqb c1 ":" then (PyStr.take 2 p, PyStr.drop 2 p)
      else (EmptyString, p)
  | _ => (EmptyString, p)
  end.

Definition starts_with_sep (s : string) : bool :=
  match s with
  | String c _ => is_sep c
  | EmptyString => false
  end.

Definition ends_with_sep (s : string) : bool :=
  match PyStr.last_char s with
  | Some c => is_sep c
  | None => false
  end.

Definition ends_with_colon (s : string) : bool :=
  match PyStr.last_char s with
  | Some c => Ascii.eqb c ":"
  | None => false
  end.

(** The component is relative to what has been joined so far. *)
Definition relative_step (result_path p_path : string) : string :=
  (if negb (PyStr.is_empty result_path) && negb (ends_with_sep result_path)
   then result_path +:+ String backslash EmptyString
   else result_path) +:+ p_path.

Definition join_step (acc : string * string) (p : string) : string * string :=
  let '(result_drive, result_path) := acc in
  let '(p_drive, p_path) := splitdrive p in
  if starts_with_sep p_path then
    ((if negb (PyStr.is_empty p_drive) || PyStr.is_empty result_drive
      then p_drive else result_drive), p_path)
  else if negb (PyStr.is_empty p_drive)
          && negb (String.eqb p_drive result_drive) then
    if negb (String.eqb (PyStr.lower p_drive) (PyStr.lower result_drive))
    then (p_drive, p_path)
    else (p_drive, relative_step result_path p_path)
  else (result_drive, relative_step result_path p_path).

Definition join (path : string) (paths : list string) : string :=
  let '(result_drive, result_path) :=
    fold_left join_step paths (splitdrive path) in
  if negb (PyStr.is_empty result_path) && negb (starts_with_sep result_path)
     && negb (PyStr.is_empty result_drive)
     && negb (ends_with_colon result_drive)
  then result_drive +:+ String backslash EmptyString +:+ result_path
  else result_drive +:+ result_path.

End NtPath.

#[export] Instance ntpath : OsPath := {|
  os_path_join := NtPath.join
|}.

(** ** The world the hook runs in *)

(** Exceptions that can travel through the script. *)
Inductive PyExc : Type :=
| OSError
| ValueError
| UnicodeEncodeError
| UserError
| SystemExit (code : nat).

(** What [os.stat(path)] does for a path: it succeeds, or raises
    [OSError] (no such file, no permission, ...) or [ValueError]
    (a path the operating system cannot even be asked about). *)
Inductive stat_result : Type :=
| stat_ok
| stat_OSError
| stat_ValueError.

Record World : Type := mkWorld {
  (** string-valued construction variables *)
  env_vars : gmap string string;
  (** list-valued construction variables, extended by [env.Append] *)
  env_lists : gmap string (list string);
  (** the file system, as far as [os.stat] shows it *)
  fs_stat : string -> stat_result;
  (** the console: given the text written so far and a text to write,
      [None] when the text is written, [Some e] when writing it raises
      [e] (an encoding that cannot hold the text, a closed pipe) *)
  console : string -> string -> option PyExc;
  (** the text written to standard output so far *)
  stdout : string
}.

(** The entries of a flag collection; a variable that is not set holds
    no entry. *)
Definition flags (key : string) (w : World) : list string :=
  default [] (env_lists w !! key).

(** ** The monad: state passing with exceptions *)

Inductive Outcome (A : Type) : Type :=
| Returned (a : A) (w : World)
| Raised (e : PyExc) (w : World).

Arguments Returned {A} a w.
Arguments Raised {A} e w.

(** The world an outcome leaves behind, however it ended. *)
Definition world_after {A} (o : Outcome A) : World :=
  match o with
  | Returned _ w => w
  | Raised _ w => w
  end.

Definition M (A : Type) : Type := World -> Outcome A.

Definition ret {A} (a : A) : M A := fun w => Returned a w.

Definition bind {A B} (m : M A) (k : A -> M B) : M B :=
  fun w =>
    match m w with
    | Returned a w' => k a w'
    | Raised e w' => Raised e w'
    end.

Definition raise {A} (e : PyExc) : M A := fun w => Raised e w.

(** [try: body / except <handled>: handler] *)
Definition try_except {A} (body : M A) (handled : PyExc -> bool)
    (handler : M A) : M A :=
  fun w =>
    match body w with
    | Returned a w' => Returned a w'
    | Raised e w' => if handled e then handler w' else Raised e w'
    end.

Declare Scope py_scope.
Delimit Scope py_scope with py.

Notation "x <- m ;; k" := (bind m (fun x => k))
  (at level 100, m at next level, right associativity) : py_scope.
Notation "m ;; k" := (bind m (fun _ => k))
  (at level 100, right associativity) : py_scope.

Local Open Scope py_scope.

(** ** The primitives the script uses *)

(** *** [env.subst]

    In general [env.subst] expands every [$NAME] and [${expression}] it
    meets, also inside the values it inserts, evaluates the expressions
    as Python, removes [$( $)] markers, squeezes runs of blanks, strips
    the result and raises [UserError] on an expression it cannot
    evaluate.  All of that is the build tool's business and enters as
    [scons_subst], a function of the environment and of the string that
    answers with a string or an exception.

    The one call the script makes, [env.subst("$PROJECT_DIR")], is pinned
    where none of the machinery is at work: the variable is not set (the
    answer is the empty string), or its value has nothing to expand,
    squeeze or strip (the answer is the value). *)

Inductive subst_result : Type :=
| subst_returns (s : string)
| subst_raises (e : PyExc).

Class SConsSubst := {
  scons_subst :
    gmap string string -> gmap string (list string) -> string -> subst_result
}.

(** No tab and no two blanks in a row: nothing to squeeze. *)
Fixpoint no_blank_run (s : string) : bool :=
  match s with
  | EmptyString => true
  | String c r =>
      negb (Ascii.eqb c tab)
      && negb (Ascii.eqb c space && PyStr.startswith r " ")
      && no_blank_run r
  end.

(** No white space at either end: nothing to strip. *)
Definition no_outer_space (s : string) : bool :=
  match s with
  | EmptyString => true
  | String c _ =>
      negb (PyStr.isspace c)
      && match PyStr.last_char s with
         | Some d => negb (PyStr.isspace d)
         | None => true
         end
  end.

(** A value [env.subst] hands back as it is. *)
Definition subst_transparent (v : string) : bool :=
  negb (has_char dollar v) && no_blank_run v && no_outer_space v.

Section Subst.

Context `{SConsSubst}.

Definition env_subst_answer (s : string) (vars : gmap string string)
    (lists : gmap string (list string)) : subst_result :=
  if String.eqb s "$PROJECT_DIR" then
    match vars !! "PROJECT_DIR" with
    | None => subst_returns EmptyString
    | Some v =>
        if subst_transparent v then subst_returns v
        else scons_subst vars lists s
    end
  else scons_subst vars lists s.

(** [env.subst(s)]; the environment is read, not changed. *)
Definition env_subst (s : string) : M string :=
  fun w =>
    match env_subst_answer s (env_vars w) (env_lists w) with
    | subst_returns v => Returned v w
    | subst_raises e => raise e w
    end.

End Subst.

(** *** The other primitives *)

(** [env.Append(KEY=[...])]: the values are added at the end of the
    variable's list; a variable that is not set yet is created. *)
Definition env_Append (key : string) (vals : list string) : M unit :=
  fun w =>
    Returned tt
      {| env_vars := env_vars w;
         env_lists := <[key := flags key w ++ vals]> (env_lists w);
         fs_stat := fs_stat w;
         console := console w;
         stdout := stdout w |}.

(** [os.stat(path)], for its outcome only. *)
Definition os_stat (path : string) : M unit :=
  fun w =>
    match fs_stat w path with
    | stat_ok => Returned tt w
    | stat_OSError => raise OSError w
    | stat_ValueError => raise ValueError w
    end.

(** [os.path.exists(path)] (genericpath):
<<
    try:
        os.stat(path)
    except (OSError, ValueError):
        return False
    return True
>> *)
Definition OSError_or_ValueError (e : PyExc) : bool :=
  match e with
  | OSError | ValueError => true
  | UnicodeEncodeError | UserError | SystemExit _ => false
  end.

Definition os_path_exists (path : string) : M bool :=
  try_except (os_stat path ;; ret true) OSError_or_ValueError (ret false).

(** [print(text)]: the text and a line end are written to standard
    output, unless the console raises; then nothing is written. *)
Definition print (text : string) : M unit :=
  fun w =>
    match console w (stdout w) text with
    | Some e => raise e w
    | None =>
        Returned tt
          {| env_vars := env_vars w;
             env_lists := env_lists w;
             fs_stat := fs_stat w;
             console := console w;
             stdout := stdout w +:+ text +:+ nl |}
    end.

(** ** The script *)

Section Hook.

Context `{OsPath} `{SConsSubst}.

(** Line 8: [wasm_file = os.path.join(project_dir, "pigeonhub_client.wasm")]. *)
Definition wasm_file (project_dir : string) : string :=
  os_path_join project_dir ["pigeonhub_client.wasm"].

(** The backslash and double quote that the f-string of line 23 writes
    on each side of the path. *)
Definition escaped_quote : string := String backslash (String dquote EmptyString).

(** Lines 5 to 28. *)
Definition embed_wasm : M unit :=
  project_dir <- env_subst "$PROJECT_DIR" ;;
  let wasm_file := wasm_file project_dir in
  found <- os_path_exists wasm_file ;;
  if found : bool then
    print ("Embedding WASM binary: " +:+ wasm_file) ;;
    env_Append "LINKFLAGS"
      [ "-Wl,--embedded-file";
        "-Wl," +:+ wasm_file ] ;;
    env_Append "BUILD_FLAGS"
      [ "-DWASM_BINARY_PATH=" +:+ escaped_quote +:+ wasm_file +:+ escaped_quote ]
  else
    print ("WARNING: WASM file not found at " +:+ wasm_file) ;;
    print "PigeonHub will compile but WASM functionality will not work!".

(** Several runs in a row: a build that lists the script more than once
    runs it again on the environment the run before left behind. *)
Fixpoint run_times (n : nat) : M unit :=
  match n with
  | O => ret tt
  | S n' => embed_wasm ;; run_times n'
  end.

End Hook.

(** ** What the statements below talk about *)

(** The texts the two branches print. *)
Definition found_text (path : string) : string :=
  "Embedding WASM binary: " +:+ path.

Definition warning_text (path : string) : string :=
  "WARNING: WASM file not found at " +:+ path.

Definition unavailable_text : string :=
  "PigeonHub will compile but WASM functionality will not work!".

(** The entries the found branch adds to each collection. *)
Definition link_entries (path : string) : list string :=
  [ "-Wl,--embedded-file"; "-Wl," +:+ path ].

Definition define_entry (path : string) : string :=
  "-DWASM_BINARY_PATH=" +:+ escaped_quote +:+ path +:+ escaped_quote.

(** The console takes the line of the found branch. *)
Definition found_accepted (path : string) (w : World) : Prop :=
  console w (stdout w) (found_text path) = None.

(** The console takes the two lines of the missing branch, one after
    the other. *)
Definition missing_accepted (path : string) (w : World) : Prop :=
  console w (stdout w) (warning_text path) = None /\
  console w (stdout w +:+ warning_text path +:+ nl) unavailable_text = None.

(** The world a found-branch run that prints its line leaves behind. *)
Definition found_world (path : string) (w : World) : World :=
  {| env_vars := env_vars w;
     env_lists :=
       <["BUILD_FLAGS" := flags "BUILD_FLAGS" w ++ [define_entry path]]>
         (<["LINKFLAGS" := flags "LINKFLAGS" w ++ link_entries path]>
            (env_lists w));
     fs_stat := fs_stat w;
     console := console w;
     stdout := stdout w +:+ found_text path +:+ nl |}.

(** The world a missing-branch run that prints both lines leaves behind. *)
Definition missing_world (path : string) (w : World) : World :=
  {| env_vars := env_vars w;
     env_lists := env_lists w;
     fs_stat := fs_stat w;
     console := console w;
     stdout :=
       stdout w +:+ warning_text path +:+ nl +:+ unavailable_text +:+ nl |}.

(** A world with other list-valued variables and another text on
    standard output. *)
Definition with_lists_and_stdout (w : World)
    (lists : gmap string (list string)) (out : string) : World :=
  {| env_vars := env_vars w;
     env_lists := lists;
     fs_stat := fs_stat w;
     console := console w;
     stdout := out |}.

(** ** String literals of C

    The compile flag defines a preprocessor symbol whose replacement text
    is meant to be a string literal.  This is the lexical grammar of a
    plain string literal (C11, 6.4.5 with the escape sequences of
    6.4.4.4): a double quote, a sequence of s-chars, a double quote,
    where an s-char is an escape sequence or any character other than
    the double quote, the backslash and the new-line. *)

Module CLex.

Definition in_range (lo hi : nat) (c : ascii) : bool :=
  (lo <=? nat_of_ascii c)%nat && (nat_of_ascii c <=? hi)%nat.

Definition is_octal_digit (c : ascii) : bool := in_range 48 55 c.

Definition is_hex_digit (c : ascii) : bool :=
  in_range 48 57 c || in_range 65 70 c || in_range 97 102 c.

(** One of ['], double quote, [?], backslash, [a b f n r t v]. *)
Definition is_simple_escape (c : ascii) : bool :=
  existsb (Ascii.eqb c)
    [ "'"%char; dquote; "?"%char; backslash; "a"%char; "b"%char; "f"%char;
      "n"%char; "r"%char; "t"%char; "v"%char ].

(** The first [n] characters of [s] are there and are hexadecimal digits. *)
Fixpoint hex_digits (n : nat) (s : string) : bool :=
  match n with
  | O => true
  | S n' =>
      match s with
      | EmptyString => false
      | String c r => is_hex_digit c && hex_digits n' r
      end
  end.

(** The character [e] after a backslash, followed by [rest], starts an
    escape sequence. *)
Definition escape_ok (e : ascii) (rest : string) : bool :=
  is_simple_escape e
  || is_octal_digit e
  || (Ascii.eqb e "x" && hex_digits 1 rest)
  || (Ascii.eqb e "u" && hex_digits 4 rest)
  || (Ascii.eqb e "U" && hex_digits 8 rest).

(** What follows the opening quote: s-chars up to a closing quote that is
    the last character. *)
Fixpoint literal_tail (s : string) : bool :=
  match s with
  | EmptyString => false
  | String c r =>
      if Ascii.eqb c dquote then PyStr.is_empty r
      else if Ascii.eqb c newline then false
      else if Ascii.eqb c backslash then
        match r with
        | EmptyString => false
        | String e r' => escape_ok e r' && literal_tail r'
        end
      else literal_tail r
  end.

Definition is_string_literal (s : string) : bool :=
  match s with
  | EmptyString => false
  | String c r => Ascii.eqb c dquote && literal_tail r
  end.

(** A character that stands for itself inside a string literal. *)
Definition plain_char (c : ascii) : bool :=
  negb (Ascii.eqb c dquote) && negb (Ascii.eqb c newline)
  && negb (Ascii.eqb c backslash).

Fixpoint plain (s : string) : bool :=
  match s with
  | EmptyString => true
  | String c r => plain_char c && plain r
  end.

End CLex.

(** ** From the compile flag to the define

    PlatformIO hands every entry of [BUILD_FLAGS] to SCons'
    [env.ParseFlags], which splits it into words with [shlex.split] and
    records a word [-Dname=value] as the define [name] with the value
    [value]. *)

Inductive split_result : Type :=
| split_words (ws : list string)
| split_raises (e : PyExc).

(** [shlex.split(s)]: the POSIX-mode word splitter of the Python library,
    with white-space splitting and without comments.  The states are
    those of [shlex.read_token]: between words, inside a word, inside a
    quotation, and after a backslash (met inside a word or inside a
    double quotation). *)

Module Shlex.

Inductive state : Type :=
| Blank
| Word
| Quoted (q : ascii)
| Escaped (in_dquote : bool).

(** [shlex.whitespace]: blank, tab, carriage return, new-line. *)
Definition is_whitespace (c : ascii) : bool :=
  Ascii.eqb c space || Ascii.eqb c tab || Ascii.eqb c cr || Ascii.eqb c newline.

(** [shlex.quotes] *)
Definition is_quote (c : ascii) : bool :=
  Ascii.eqb c squote || Ascii.eqb c dquote.

(** [token += c] *)
Definition push (tok : string) (c : ascii) : string :=
  tok +:+ String c EmptyString.

Definition emit (tok : string) (r : split_result) : split_result :=
  match r with
  | split_words ws => split_words (tok :: ws)
  | split_raises e => split_raises e
  end.

Fixpoint run (st : state) (tok : string) (s : string) : split_result :=
  match s with
  | EmptyString =>
      match st with
      | Blank => split_words []
      | Word => split_words [tok]
      | Quoted _ => split_raises ValueError
      | Escaped _ => split_raises ValueError
      end
  | String c r =>
      match st with
      | Blank =>
          if is_whitespace c then run Blank EmptyString r
          else if Ascii.eqb c backslash then run (Escaped false) EmptyString r
          else if is_quote c then run (Quoted c) EmptyString r
          else run Word (String c EmptyString) r
      | Word =>
          if is_whitespace c then emit tok (run Blank EmptyString r)
          else if is_quote c then run (Quoted c) tok r
          else if Ascii.eqb c backslash then run (Escaped false) tok r
          else run Word (push tok c) r
      | Quoted q =>
          if Ascii.eqb c q then run Word tok r
          else if Ascii.eqb c backslash && Ascii.eqb q dquote
          then run (Escaped true) tok r
          else run (Quoted q) (push tok c) r
      | Escaped in_dquote =>
          let tok' :=
            if in_dquote && negb (Ascii.eqb c backslash)
               && negb (Ascii.eqb c dquote)
            then push tok backslash else tok in
          run (if in_dquote then Quoted dquote else Word) (push tok' c) r
      end
  end.

Definition split (s : string) : split_result := run Blank EmptyString s.

(** A character that [split] takes as it is. *)
Definition plain_char (c : ascii) : bool :=
  negb (is_whitespace c) && negb (is_quote c) && negb (Ascii.eqb c backslash).

Definition plain (s : string) : bool := all_chars plain_char s.

End Shlex.

(** [s] split at its first [=]. *)
Fixpoint split_eq (s : string) : option (string * string) :=
  match s with
  | EmptyString => None
  | String c r =>
      if Ascii.eqb c "="%char then Some (EmptyString, r)
      else
        match split_eq r with
        | Some (l, v) => Some (String c l, v)
        | None => None
        end
  end.


(** [append_define] of [ParseFlags]: [name=value] gives the symbol and
    its value, a bare [name] the symbol alone. *)
Definition append_define (def : string) : string * option string :=
  match split_eq def with
  | Some (name, value) => (name, Some value)
  | None => (def, None)
  end.

Inductive define_result : Type :=
| define_recorded (name : string) (value : option string)
| define_none
| define_raises (e : PyExc).

(** The define [ParseFlags] records for the first word of a flag. *)
Definition ParseFlags_define (flag : string) : define_result :=
  match Shlex.split flag with
  | split_raises e => define_raises e
  | split_words (String "-"%char (String "D"%char (String c d)) :: _) =>
      let '(name, value) := append_define (String c d) in
      define_recorded name value
  | split_words _ => define_none
  end.

(** ** Sample worlds *)

(** A build tool that gives up on whatever it would have to expand. *)
Definition refusing_subst : SConsSubst :=
  {| scons_subst := fun _ _ _ => subst_raises UserError |}.

(** A console that takes every text. *)
Definition open_console : string -> string -> option PyExc :=
  fun _ _ => None.

(** A console whose encoding holds the characters below 128 only. *)
Definition ascii_console : string -> string -> option PyExc :=
  fun _ text =>
    if all_chars (fun c => (nat_of_ascii c <? 128)%nat) text then None
    else Some UnicodeEncodeError.

Definition fs_with (files : list string) : string -> stat_result :=
  fun path => if bool_decide (path ∈ files) then stat_ok else stat_OSError.

Definition sample_world (root : string) (files : list string) : World :=
  {| env_vars := {[ "PROJECT_DIR" := root ]};
     env_lists := {[ "LINKFLAGS" := [ "-Os" ]; "CCFLAGS" := [ "-Wall" ] ]};
     fs_stat := fs_with files;
     console := open_console;
     stdout := "Processing esp32dev" +:+ nl |}.

(** A project whose artifact has been built. *)
Definition world_built : World :=
  sample_world "/home/dev/sketch" [ "/home/dev/sketch/pigeonhub_client.wasm" ].

(** The same project and artifact, met by another build: other flags
    set so far, other text printed so far, more files around. *)
Definition world_built_again : World :=
  {| env_vars := {[ "PROJECT_DIR" := "/home/dev/sketch"; "PIOENV" := "esp32dev" ]};
     env_lists := {[ "BUILD_FLAGS" := [ "-DCORE_DEBUG_LEVEL=3" ] ]};
     fs_stat :=
       fs_with [ "/home/dev/sketch/pigeonhub_client.wasm";
                 "/home/dev/sketch/platformio.ini" ];
     console := open_console;
     stdout := EmptyString |}.

(** The same project with nothing built. *)
Definition world_clean : World :=
  sample_world "/home/dev/sketch" [].

(** A project whose construction environment does not set
    [PROJECT_DIR]; the artifact lies in the working directory. *)
Definition world_no_root : World :=
  {| env_vars := {[ "PIOENV" := "esp32dev" ]};
     env_lists := {[ "LINKFLAGS" := [ "-Os" ] ]};
     fs_stat := fs_with [ "pigeonhub_client.wasm" ];
     console := open_console;
     stdout := EmptyString |}.

(** A built project in a directory with an accented letter in its name,
    on a console that holds the characters below 128 only. *)
Definition root_accented : string :=
  "/home/dev/caf" +:+ String "233"%char EmptyString.

Definition world_accented : World :=
  {| env_vars := {[ "PROJECT_DIR" := root_accented ]};
     env_lists := {[ "LINKFLAGS" := [ "-Os" ] ]};
     fs_stat := fs_with [ root_accented +:+ "/pigeonhub_client.wasm" ];
     console := ascii_console;
     stdout := EmptyString |}.

(** The same project on a console that takes every text. *)
Definition world_accented_open : World :=
  {| env_vars := env_vars world_accented;
     env_lists := env_lists world_accented;
     fs_stat := fs_stat world_accented;
     console := open_console;
     stdout := EmptyString |}.

(** A project directory whose value the build tool has to expand, and
    cannot. *)
Definition world_unexpandable : World :=
  sample_world "/home/dev/a${1+}b" [ "/home/dev/a${1+}b/pigeonhub_client.wasm" ].

(** Built projects in directories with a double quote, an apostrophe, a
    blank, two backslashes and a new-line in their names. *)
Definition built_in (root : string) : World :=
  sample_world root [ root +:+ "/pigeonhub_client.wasm" ].





Definition root_with_newline : string :=
  "/home/dev/my" +:+ String newline "sketch".

(** [n] copies of a text, one after the other. *)
Fixpoint text_times (n : nat) (s : string) : string :=
  match n with
  | O => EmptyString
  | S k => s +:+ text_times k s
  end.

(** ** What a run may do to the world *)

(** [w'] differs from [w] by additions only: entries at the end of
    [LINKFLAGS] and [BUILD_FLAGS], text at the end of standard output. *)
Definition only_adds (w w' : World) : Prop :=
  env_vars w' = env_vars w /\
  fs_stat w' = fs_stat w /\
  console w' = console w /\
  (forall key, flags key w `prefix_of` flags key w') /\
  (exists added, stdout w' = stdout w +:+ added) /\
  (forall key, key <> "LINKFLAGS" -> key <> "BUILD_FLAGS" ->
               env_lists w' !! key = env_lists w !! key).

(** A computation that only adds, however it ends. *)
Definition adding {A} (m : M A) : Prop :=
  forall w, only_adds w (world_after (m w)).

(** * Properties *)

(** ** Strings *)

Lemma append_empty s : EmptyString +:+ s = s.
Proof. reflexivity. Qed.

Lemma append_String c r s : String c r +:+ s = String c (r +:+ s).
Proof. reflexivity. Qed.

Lemma append_assoc s t u : (s +:+ t) +:+ u = s +:+ t +:+ u.
Proof.
  induction s as [| c s IH]; [reflexivity |].
  rewrite !append_String. now rewrite IH.
Qed.

Lemma append_empty_r s : s +:+ EmptyString = s.
Proof.
  induction s as [| c s IH]; [reflexivity |].
  rewrite append_String. now rewrite IH.
Qed.

Lemma length_append s t :
  String.length (s +:+ t) = String.length s + String.length t.
Proof.
  induction s as [| c s IH]; [reflexivity |].
  rewrite append_String. cbn [String.length]. now rewrite IH.
Qed.

Lemma prefix_append s t : String.prefix s (s +:+ t) = true.
Proof.
  induction s as [| c s IH]; [now destruct t |].
  rewrite append_String. cbn [String.prefix].
  destruct (ascii_dec c c); [exact IH | congruence].
Qed.

Lemma all_chars_append p s t :
  all_chars p (s +:+ t) = all_chars p s && all_chars p t.
Proof.
  induction s as [| c s IH]; [reflexivity |].
  rewrite append_String. cbn [all_chars]. now rewrite IH, andb_assoc.
Qed.

Lemma all_chars_impl (p q : ascii -> bool) s :
  (forall c, p c = true -> q c = true) ->
  all_chars p s = true -> all_chars q s = true.
Proof.
  intros Hpq. induction s as [| c s IH]; [reflexivity |].
  cbn [all_chars]. rewrite !andb_true_iff. intros [Hc Hs]. auto.
Qed.

Lemma has_char_String c x r :
  has_char c (String x r) = Ascii.eqb x c || has_char c r.
Proof.
  unfold has_char. cbn [all_chars]. now rewrite negb_andb, negb_involutive.
Qed.

Lemma has_char_append c s t :
  has_char c (s +:+ t) = has_char c s || has_char c t.
Proof.
  induction s as [| x s IH]; [reflexivity |].
  rewrite append_String, !has_char_String, IH. now rewrite orb_assoc.
Qed.

Lemma line_count_append s t :
  line_count (s +:+ t) = line_count s + line_count t.
Proof.
  induction s as [| c s IH]; [reflexivity |].
  rewrite append_String. cbn [line_count]. rewrite IH. lia.
Qed.

Lemma line_count_no_newline s :
  has_char newline s = false -> line_count s = 0.
Proof.
  induction s as [| c s IH]; [reflexivity |].
  rewrite has_char_String. intros Hs. apply orb_false_iff in Hs as [Hc Hs].
  cbn [line_count]. rewrite Hc. now rewrite IH.
Qed.

(** ** Running the script *)

Section Run.

Context `{OsPath} `{SConsSubst}.

Lemma os_path_exists_present w path :
  fs_stat w path = stat_ok -> os_path_exists path w = Returned true w.
Proof.
  intros Hok. unfold os_path_exists, try_except, bind, os_stat.
  now rewrite Hok.
Qed.

Lemma os_path_exists_absent w path :
  fs_stat w path <> stat_ok -> os_path_exists path w = Returned false w.
Proof.
  intros Hno. unfold os_path_exists, try_except, bind, os_stat.
  destruct (fs_stat w path); [congruence | reflexivity | reflexivity].
Qed.

(** The script from line 11 on, once the project root is known. *)
Lemma embed_wasm_after_subst w root :
  env_subst "$PROJECT_DIR" w = Returned root w ->
  embed_wasm w
  = (found <- os_path_exists (wasm_file root) ;;
     if found : bool then
       print (found_text (wasm_file root)) ;;
       env_Append "LINKFLAGS" (link_entries (wasm_file root)) ;;
       env_Append "BUILD_FLAGS" [ define_entry (wasm_file root) ]
     else
       print (warning_text (wasm_file root)) ;;
       print unavailable_text) w.
Proof. intros Hroot. unfold embed_wasm, bind at 1. now rewrite Hroot. Qed.

Lemma embed_wasm_subst_raises w e w' :
  env_subst "$PROJECT_DIR" w = Raised e w' -> embed_wasm w = Raised e w'.
Proof. intros Hroot. unfold embed_wasm, bind at 1. now rewrite Hroot. Qed.

Lemma embed_wasm_found w root :
  env_subst "$PROJECT_DIR" w = Returned root w ->
  fs_stat w (wasm_file root) = stat_ok ->
  found_accepted (wasm_file root) w ->
  embed_wasm w = Returned tt (found_world (wasm_file root) w).
Proof.
  intros Hroot Hok Hout. rewrite (embed_wasm_after_subst w root Hroot).
  unfold bind at 1. rewrite (os_path_exists_present _ _ Hok).
  unfold bind, print. rewrite Hout.
  unfold env_Append, found_world, flags; cbn.
  rewrite lookup_insert_ne by discriminate. reflexivity.
Qed.

Lemma embed_wasm_found_refused w root e :
  env_subst "$PROJECT_DIR" w = Returned root w ->
  fs_stat w (wasm_file root) = stat_ok ->
  console w (stdout w) (found_text (wasm_file root)) = Some e ->
  embed_wasm w = Raised e w.
Proof.
  intros Hroot Hok Hout. rewrite (embed_wasm_after_subst w root Hroot).
  unfold bind at 1. rewrite (os_path_exists_present _ _ Hok).
  unfold bind, print. now rewrite Hout.
Qed.

Lemma embed_wasm_missing w root :
  env_subst "$PROJECT_DIR" w = Returned root w ->
  fs_stat w (wasm_file root) <> stat_ok ->
  missing_accepted (wasm_file root) w ->
  embed_wasm w = Returned tt (missing_world (wasm_file root) w).
Proof.
  intros Hroot Hno [Hout1 Hout2]. rewrite (embed_wasm_after_subst w root Hroot).
  unfold bind at 1. rewrite (os_path_exists_absent _ _ Hno).
  unfold bind, print. rewrite Hout1. cbn [stdout console].
  rewrite Hout2. unfold missing_world. cbn [stdout console env_vars env_lists fs_stat].
  now rewrite !append_assoc.
Qed.

Lemma embed_wasm_missing_refused w root e :
  env_subst "$PROJECT_DIR" w = Returned root w ->
  fs_stat w (wasm_file root) <> stat_ok ->
  console w (stdout w) (warning_text (wasm_file root)) = Some e ->
  embed_wasm w = Raised e w.
Proof.
  intros Hroot Hno Hout. rewrite (embed_wasm_after_subst w root Hroot).
  unfold bind at 1. rewrite (os_path_exists_absent _ _ Hno).
  unfold bind, print. now rewrite Hout.
Qed.

Lemma embed_wasm_missing_refused_late w root e :
  env_subst "$PROJECT_DIR" w = Returned root w ->
  fs_stat w (wasm_file root) <> stat_ok ->
  console w (stdout w) (warning_text (wasm_file root)) = None ->
  console w (stdout w +:+ warning_text (wasm_file root) +:+ nl)
    unavailable_text = Some e ->
  embed_wasm w
  = Raised e (with_lists_and_stdout w (env_lists w)
                (stdout w +:+ warning_text (wasm_file root) +:+ nl)).
Proof.
  intros Hroot Hno Hout1 Hout2. rewrite (embed_wasm_after_subst w root Hroot).
  unfold bind at 1. rewrite (os_path_exists_absent _ _ Hno).
  unfold bind, print. rewrite Hout1. cbn [stdout console].
  now rewrite Hout2.
Qed.

(** ** What a run leaves in the environment *)

Lemma flags_found_link path w :
  flags "LINKFLAGS" (found_world path w)
  = flags "LINKFLAGS" w ++ link_entries path.
Proof.
  unfold flags at 1, found_world; cbn.
  rewrite lookup_insert_ne by discriminate.
  now rewrite lookup_insert_eq.
Qed.

Lemma flags_found_build path w :
  flags "BUILD_FLAGS" (found_world path w)
  = flags "BUILD_FLAGS" w ++ [define_entry path].
Proof.
  unfold flags at 1, found_world; cbn.
  now rewrite lookup_insert_eq.
Qed.

Lemma lists_found_other path w key :
  key <> "LINKFLAGS" -> key <> "BUILD_FLAGS" ->
  env_lists (found_world path w) !! key = env_lists w !! key.
Proof.
  intros Hl Hb. unfold found_world; cbn.
  rewrite lookup_insert_ne by congruence.
  now rewrite lookup_insert_ne by congruence.
Qed.

End Run.

(** ** The claims about the hook *)

Section Claims.

Context `{OsPath} `{SConsSubst}.

(** What the hook leaves behind, by cases on the file system and on the
    console, once the project root is known. *)
Lemma world_after_cases w root :
  env_subst "$PROJECT_DIR" w = Returned root w ->
  (fs_stat w (wasm_file root) = stat_ok /\
   ((found_accepted (wasm_file root) w /\
     embed_wasm w = Returned tt (found_world (wasm_file root) w))
    \/ (exists e, console w (stdout w) (found_text (wasm_file root)) = Some e /\
                  embed_wasm w = Raised e w)))
  \/
  (fs_stat w (wasm_file root) <> stat_ok /\
   env_lists (world_after (embed_wasm w)) = env_lists w /\
   ((missing_accepted (wasm_file root) w /\
     embed_wasm w = Returned tt (missing_world (wasm_file root) w))
    \/ (exists e w', ~ missing_accepted (wasm_file root) w /\
                     embed_wasm w = Raised e w'))).
Proof.
  intros Hroot.
  destruct (fs_stat w (wasm_file root)) eqn:Estat.
  - left. split; [reflexivity |].
    destruct (console w (stdout w) (found_text (wasm_file root))) as [e |] eqn:Eout.
    + right. exists e. split; [reflexivity |].
      now apply (embed_wasm_found_refused w root).
    + left. split; [exact Eout |]. now apply embed_wasm_found.
  - right. assert (Hno : fs_stat w (wasm_file root) <> stat_ok) by congruence.
    rewrite <- Estat. split; [exact Hno |].
    destruct (console w (stdout w) (warning_text (wasm_file root)))
      as [e |] eqn:Eout1.
    + rewrite (embed_wasm_missing_refused w root e Hroot Hno Eout1).
      split; [reflexivity |]. right. exists e, w.
      split; [| reflexivity]. intros [Hacc _]. congruence.
    + destruct (console w (stdout w +:+ warning_text (wasm_file root) +:+ nl)
                  unavailable_text) as [e |] eqn:Eout2.
      * rewrite (embed_wasm_missing_refused_late w root e Hroot Hno Eout1 Eout2).
        split; [reflexivity |]. right. eexists e, _.
        split; [| reflexivity]. intros [_ Hacc]. congruence.
      * rewrite (embed_wasm_missing w root Hroot Hno (conj Eout1 Eout2)).
        split; [reflexivity |]. left. split; [split; assumption | reflexivity].
  - right. assert (Hno : fs_stat w (wasm_file root) <> stat_ok) by congruence.
    rewrite <- Estat. split; [exact Hno |].
    destruct (console w (stdout w) (warning_text (wasm_file root)))
      as [e |] eqn:Eout1.
    + rewrite (embed_wasm_missing_refused w root e Hroot Hno Eout1).
      split; [reflexivity |]. right. exists e, w.
      split; [| reflexivity]. intros [Hacc _]. congruence.
    + destruct (console w (stdout w +:+ warning_text (wasm_file root) +:+ nl)
                  unavailable_text) as [e |] eqn:Eout2.
      * rewrite (embed_wasm_missing_refused_late w root e Hroot Hno Eout1 Eout2).
        split; [reflexivity |]. right. eexists e, _.
        split; [| reflexivity]. intros [_ Hacc]. congruence.
      * rewrite (embed_wasm_missing w root Hroot Hno (conj Eout1 Eout2)).
        split; [reflexivity |]. left. split; [split; assumption | reflexivity].
Qed.

(** C1, as the code has it.  When [env.subst] gives the project root,
    the artifact is in it and the console takes the informational line,
    one run adds exactly one pair of entries to the linker flags and
    exactly one entry to the compile flags, and that entry is
    [-DWASM_BINARY_PATH=] followed by a backslash, a double quote, the
    resolved path, a backslash and a double quote. *)
Theorem found_appends_pair_and_define w root :
  env_subst "$PROJECT_DIR" w = Returned root w ->
  fs_stat w (wasm_file root) = stat_ok ->
  found_accepted (wasm_file root) w ->
  exists w' l1 l2 c,
    embed_wasm w = Returned tt w' /\
    flags "LINKFLAGS" w' = flags "LINKFLAGS" w ++ [l1; l2] /\
    length (flags "LINKFLAGS" w') = length (flags "LINKFLAGS" w) + 2 /\
    flags "BUILD_FLAGS" w' = flags "BUILD_FLAGS" w ++ [c] /\
    length (flags "BUILD_FLAGS" w') = length (flags "BUILD_FLAGS" w) + 1 /\
    c = "-DWASM_BINARY_PATH="
          +:+ String backslash (String dquote (wasm_file root))
          +:+ String backslash (String dquote EmptyString).
Proof.
  intros Hroot Hok Hout.
  exists (found_world (wasm_file root) w), "-Wl,--embedded-file",
    ("-Wl," +:+ wasm_file root), (define_entry (wasm_file root)).
  rewrite flags_found_link, flags_found_build, !length_app.
  repeat split; auto using embed_wasm_found.
Qed.

(** C2. When [env.subst] gives the project root and the artifact is not
    in it, a run adds nothing to either collection and leaves every
    list-valued variable, the two collections among them, exactly as it
    was, whether the warning can be printed or not; when the console
    takes the two lines of the warning, the run returns. *)
Theorem missing_appends_nothing w root :
  env_subst "$PROJECT_DIR" w = Returned root w ->
  fs_stat w (wasm_file root) <> stat_ok ->
  flags "LINKFLAGS" (world_after (embed_wasm w)) = flags "LINKFLAGS" w /\
  flags "BUILD_FLAGS" (world_after (embed_wasm w)) = flags "BUILD_FLAGS" w /\
  env_lists (world_after (embed_wasm w)) = env_lists w /\
  (missing_accepted (wasm_file root) w ->
   embed_wasm w = Returned tt (world_after (embed_wasm w))).
Proof.
  intros Hroot Hno.
  destruct (world_after_cases w root Hroot) as [[Hok _] | (_ & Hlists & Hrun)];
    [congruence |].
  unfold flags. rewrite Hlists. repeat split.
  intros Hacc. destruct Hrun as [[_ ->] | (e & w' & Hnacc & _)];
    [reflexivity | contradiction].
Qed.

(** C4, as the code has it.  When [env.subst] gives the project root and
    the console takes what the branch at hand prints, a run returns
    normally whatever [os.stat] does on the resolved path: it succeeds,
    or it raises [OSError] or [ValueError].  A missing artifact never
    makes the hook raise or exit. *)
Theorem embed_wasm_returns w root :
  env_subst "$PROJECT_DIR" w = Returned root w ->
  (fs_stat w (wasm_file root) = stat_ok -> found_accepted (wasm_file root) w) ->
  (fs_stat w (wasm_file root) <> stat_ok ->
   missing_accepted (wasm_file root) w) ->
  exists w', embed_wasm w = Returned tt w'.
Proof.
  intros Hroot Hfound Hmissing.
  destruct (world_after_cases w root Hroot)
    as [(Hok & [[_ Hrun] | (e & Hout & _)])
       | (Hno & _ & [[_ Hrun] | (e & w' & Hnacc & _)])].
  - eauto.
  - specialize (Hfound Hok). unfold found_accepted in Hfound. congruence.
  - eauto.
  - destruct (Hnacc (Hmissing Hno)).
Qed.

(** C6, as the code has it.  When a first run has returned and a second
    run on the environment it left finds the same project root, the
    artifact still there and the console taking the informational line,
    the entries are added twice: both collections end with two copies of
    what one run adds. *)
Theorem twice_appends_twice w w1 root :
  embed_wasm w = Returned tt w1 ->
  env_subst "$PROJECT_DIR" w = Returned root w ->
  env_subst "$PROJECT_DIR" w1 = Returned root w1 ->
  fs_stat w (wasm_file root) = stat_ok ->
  found_accepted (wasm_file root) w1 ->
  exists w2,
    (embed_wasm ;; embed_wasm) w = Returned tt w2 /\
    flags "LINKFLAGS" w2
    = flags "LINKFLAGS" w
        ++ [ "-Wl,--embedded-file"; "-Wl," +:+ wasm_file root ]
        ++ [ "-Wl,--embedded-file"; "-Wl," +:+ wasm_file root ] /\
    flags "BUILD_FLAGS" w2
    = flags "BUILD_FLAGS" w
        ++ [ define_entry (wasm_file root) ]
        ++ [ define_entry (wasm_file root) ].
Proof.
  intros Hrun1 Hroot Hroot1 Hok Hout1.
  assert (Hw1 : w1 = found_world (wasm_file root) w).
  { destruct (world_after_cases w root Hroot)
      as [(_ & [[_ Hrun] | (e & _ & Hrun)]) | (Hno & _)]; congruence. }
  assert (Hok1 : fs_stat w1 (wasm_file root) = stat_ok) by (now subst w1).
  exists (found_world (wasm_file root) w1). split; [| split].
  - unfold bind. rewrite Hrun1. now apply embed_wasm_found.
  - rewrite flags_found_link. subst w1. rewrite flags_found_link.
    now rewrite <- app_assoc.
  - rewrite flags_found_build. subst w1. rewrite flags_found_build.
    now rewrite <- app_assoc.
Qed.


(** C8, as the code has it.  When [env.subst] gives the project root
    and the console takes what is printed, a run writes exactly one of
    two texts.  With the artifact there: [Embedding WASM binary: ], the
    resolved path and a line end.  Without it: [WARNING: WASM file not
    found at ], the path, a line end, the sentence that the WASM
    functionality will not work and a line end.  For a path without a
    new-line these are one line and two lines. *)
Theorem console_output_forms w root :
  env_subst "$PROJECT_DIR" w = Returned root w ->
  (fs_stat w (wasm_file root) = stat_ok ->
   found_accepted (wasm_file root) w ->
   exists w',
     embed_wasm w = Returned tt w' /\
     stdout w'
     = stdout w +:+ "Embedding WASM binary: " +:+ wasm_file root +:+ nl /\
     (has_char newline (wasm_file root) = false ->
      line_count (stdout w') = line_count (stdout w) + 1)) /\
  (fs_stat w (wasm_file root) <> stat_ok ->
   missing_accepted (wasm_file root) w ->
   exists w',
     embed_wasm w = Returned tt w' /\
     stdout w'
     = stdout w +:+ "WARNING: WASM file not found at " +:+ wasm_file root
         +:+ nl
         +:+ "PigeonHub will compile but WASM functionality will not work!"
         +:+ nl /\
     (has_char newline (wasm_file root) = false ->
      line_count (stdout w') = line_count (stdout w) + 2)).
Proof.
  intros Hroot. split.
  - intros Hok Hacc. exists (found_world (wasm_file root) w).
    split; [now apply embed_wasm_found |]. split; [reflexivity |].
    intros Hnl. cbn [stdout found_world]. unfold found_text.
    rewrite !line_count_append, (line_count_no_newline _ Hnl). reflexivity.
  - intros Hno Hacc. exists (missing_world (wasm_file root) w).
    split; [now apply embed_wasm_missing |]. split; [reflexivity |].
    intros Hnl. cbn [stdout missing_world]. unfold warning_text.
    rewrite !line_count_append, (line_count_no_newline _ Hnl). reflexivity.
Qed.

(** C9, as the code has it.  Two runs that get the same project root
    from [env.subst] and the same answer from the existence test, on
    consoles that take what the branch at hand prints, add the same
    entries, in the same order, and write the same text, whatever else
    differs between their worlds. *)
Theorem embed_wasm_deterministic w1 w2 root (b : bool) :
  env_subst "$PROJECT_DIR" w1 = Returned root w1 ->
  env_subst "$PROJECT_DIR" w2 = Returned root w2 ->
  os_path_exists (wasm_file root) w1 = Returned b w1 ->
  os_path_exists (wasm_file root) w2 = Returned b w2 ->
  (if b
   then found_accepted (wasm_file root) w1 /\ found_accepted (wasm_file root) w2
   else missing_accepted (wasm_file root) w1
        /\ missing_accepted (wasm_file root) w2) ->
  exists w1' w2' link build text,
    embed_wasm w1 = Returned tt w1' /\
    embed_wasm w2 = Returned tt w2' /\
    flags "LINKFLAGS" w1' = flags "LINKFLAGS" w1 ++ link /\
    flags "LINKFLAGS" w2' = flags "LINKFLAGS" w2 ++ link /\
    flags "BUILD_FLAGS" w1' = flags "BUILD_FLAGS" w1 ++ build /\
    flags "BUILD_FLAGS" w2' = flags "BUILD_FLAGS" w2 ++ build /\
    stdout w1' = stdout w1 +:+ text /\
    stdout w2' = stdout w2 +:+ text.
Proof.
  intros Hroot1 Hroot2 Hex1 Hex2 Hacc.
  assert (Hstat : forall w, os_path_exists (wasm_file root) w = Returned b w ->
            if b then fs_stat w (wasm_file root) = stat_ok
            else fs_stat w (wasm_file root) <> stat_ok).
  { intros w Hex. destruct (fs_stat w (wasm_file root)) eqn:E.
    - rewrite (os_path_exists_present _ _ E) in Hex. now destruct b.
    - rewrite os_path_exists_absent in Hex by congruence.
      destruct b; congruence.
    - rewrite os_path_exists_absent in Hex by congruence.
      destruct b; congruence. }
  pose proof (Hstat w1 Hex1) as Hs1. pose proof (Hstat w2 Hex2) as Hs2.
  destruct b; destruct Hacc as [Hacc1 Hacc2].
  - exists (found_world (wasm_file root) w1), (found_world (wasm_file root) w2),
      (link_entries (wasm_file root)), [define_entry (wasm_file root)],
      (found_text (wasm_file root) +:+ nl).
    rewrite !flags_found_link, !flags_found_build.
    repeat split; now apply embed_wasm_found.
  - exists (missing_world (wasm_file root) w1),
      (missing_world (wasm_file root) w2), [], [],
      (warning_text (wasm_file root) +:+ nl +:+ unavailable_text +:+ nl).
    unfold flags. cbn [env_lists missing_world]. rewrite !app_nil_r.
    repeat split; now apply embed_wasm_missing.
Qed.

(** C10. On the found branch a run only adds at the end of the two
    collections: what was in them stays in front, in order; every other
    list-valued variable, every string-valued variable and the file
    system are as before; and when the console takes the informational
    line, the run returns with the embed directive and, right behind it,
    the path flag added to the linker flags. *)
Theorem found_only_appends w root :
  env_subst "$PROJECT_DIR" w = Returned root w ->
  fs_stat w (wasm_file root) = stat_ok ->
  (forall i x, flags "LINKFLAGS" w !! i = Some x ->
               flags "LINKFLAGS" (world_after (embed_wasm w)) !! i = Some x) /\
  (forall i x, flags "BUILD_FLAGS" w !! i = Some x ->
               flags "BUILD_FLAGS" (world_after (embed_wasm w)) !! i = Some x) /\
  (forall key, key <> "LINKFLAGS" -> key <> "BUILD_FLAGS" ->
               env_lists (world_after (embed_wasm w)) !! key
               = env_lists w !! key) /\
  env_vars (world_after (embed_wasm w)) = env_vars w /\
  fs_stat (world_after (embed_wasm w)) = fs_stat w /\
  (found_accepted (wasm_file root) w ->
   exists w' c,
     embed_wasm w = Returned tt w' /\
     flags "LINKFLAGS" w'
     = flags "LINKFLAGS" w
         ++ [ "-Wl,--embedded-file"; "-Wl," +:+ wasm_file root ] /\
     flags "BUILD_FLAGS" w' = flags "BUILD_FLAGS" w ++ [c]).
Proof.
  intros Hroot Hok.
  destruct (world_after_cases w root Hroot)
    as [(_ & [[Hacc Hrun] | (e & Hout & Hrun)]) | (Hno & _)]; [| | congruence].
  - rewrite Hrun. cbn [world_after].
    rewrite flags_found_link, flags_found_build.
    repeat split; auto using lists_found_other.
    + intros i x Hi. now apply lookup_app_l_Some.
    + intros i x Hi. now apply lookup_app_l_Some.
    + intros _. exists (found_world (wasm_file root) w),
        (define_entry (wasm_file root)).
      now rewrite flags_found_link, flags_found_build.
  - rewrite Hrun. cbn [world_after]. repeat split; auto.
    intros Hacc. unfold found_accepted in Hacc. congruence.
Qed.

End Claims.

(** ** The resolved path on the two platforms *)

Lemma endswith_app r suf : PyStr.endswith (r +:+ suf) suf = true.
Proof.
  induction r as [| c r IH].
  - rewrite append_empty. destruct suf; cbn [PyStr.endswith];
      now rewrite String.eqb_refl.
  - rewrite append_String. cbn [PyStr.endswith]. rewrite IH. apply orb_true_r.
Qed.

Lemma endswith_inv s suf :
  PyStr.endswith s suf = true -> exists r, s = r +:+ suf.
Proof.
  induction s as [| c s IH]; cbn [PyStr.endswith]; intros Hs.
  - rewrite orb_false_r in Hs. apply String.eqb_eq in Hs. now exists EmptyString.
  - apply orb_true_iff in Hs as [Hs | Hs].
    + apply String.eqb_eq in Hs. now exists EmptyString.
    + destruct (IH Hs) as [r ->]. now exists (String c r).
Qed.

Lemma posix_join_trailing r b :
  PyStr.startswith b "/" = false ->
  posix_join (r +:+ "/") [b] = r +:+ "/" +:+ b.
Proof.
  intros Hb. unfold posix_join; cbn [fold_left]. unfold posix_join_step.
  rewrite Hb, endswith_app, orb_true_r.
  induction r as [| c r IH]; [reflexivity |].
  rewrite !append_String. now rewrite IH.
Qed.

Lemma posix_join_plain root b :
  PyStr.startswith b "/" = false ->
  root <> EmptyString -> (forall r, root <> r +:+ "/") ->
  posix_join root [b] = root +:+ "/" +:+ b.
Proof.
  intros Hb Hne Hsep. unfold posix_join; cbn [fold_left]. unfold posix_join_step.
  rewrite Hb.
  destruct root as [| c root]; [congruence |]. cbn [PyStr.is_empty orb].
  destruct (PyStr.endswith (String c root) "/") eqn:E; [| reflexivity].
  apply endswith_inv in E as [r Hr]. now destruct (Hsep r).
Qed.

(** A root that starts with a drive letter and a colon, under
    [ntpath.join]. *)
Lemma ntpath_join_drive_letter l rest b :
  NtPath.splitdrive b = (EmptyString, b) ->
  NtPath.starts_with_sep b = false ->
  rest <> EmptyString ->
  NtPath.join (String l (String ":" rest)) [b]
  = String l (String ":" rest)
      +:+ (if NtPath.ends_with_sep rest then EmptyString
           else String backslash EmptyString)
      +:+ b.
Proof.
  intros Hdrive Hrel Hrest.
  assert (Hsplit : NtPath.splitdrive (String l (String ":" rest))
                   = (String l (String ":" EmptyString), rest)).
  { unfold NtPath.splitdrive.
    change (NtPath.is_sep ":") with false. rewrite andb_false_r.
    reflexivity. }
  unfold NtPath.join. cbn [fold_left]. rewrite Hsplit.
  unfold NtPath.join_step. rewrite Hdrive, Hrel. cbn [PyStr.is_empty negb andb].
  change (NtPath.ends_with_colon (String l (String ":" EmptyString))) with true.
  cbn [negb]. rewrite !andb_false_r.
  unfold NtPath.relative_step.
  destruct rest as [| c rest]; [congruence |]. cbn [PyStr.is_empty negb andb].
  rewrite !append_String, append_empty.
  destruct (NtPath.ends_with_sep (String c rest)); cbn [negb].
  - now rewrite append_empty.
  - rewrite !append_String. now rewrite append_assoc.
Qed.

(** C3. Whatever the platform's join is, the path the hook stats, prints
    and embeds is that join of the project root [env.subst] gave and the
    file name [pigeonhub_client.wasm]: with [os.stat] succeeding on that
    very path the run prints and embeds it, with [os.stat] failing on it
    the run warns about it.  On a POSIX platform the join is the root
    followed by the file name when the root ends with the separator, and
    the root, one separator and the file name when the root is not empty
    and does not end with it.  On Windows, for a root that starts with a
    drive letter and a colon and goes on, it is the root followed by the
    file name when the root ends with a slash or a backslash, and the
    root, one backslash and the file name when it does not. *)
Theorem resolved_path_is_join :
  (forall (P : OsPath) (S : SConsSubst) (w : World) (root : string),
     @env_subst S "$PROJECT_DIR" w = Returned root w ->
     (fs_stat w (@os_path_join P root ["pigeonhub_client.wasm"]) = stat_ok ->
      found_accepted (@os_path_join P root ["pigeonhub_client.wasm"]) w ->
      exists w',
        @embed_wasm P S w = Returned tt w' /\
        stdout w'
        = stdout w +:+ "Embedding WASM binary: "
            +:+ @os_path_join P root ["pigeonhub_client.wasm"] +:+ nl /\
        flags "LINKFLAGS" w'
        = flags "LINKFLAGS" w
            ++ [ "-Wl,--embedded-file";
                 "-Wl," +:+ @os_path_join P root ["pigeonhub_client.wasm"] ] /\
        flags "BUILD_FLAGS" w'
        = flags "BUILD_FLAGS" w
            ++ [ "-DWASM_BINARY_PATH=" +:+ escaped_quote
                   +:+ @os_path_join P root ["pigeonhub_client.wasm"]
                   +:+ escaped_quote ]) /\
     (fs_stat w (@os_path_join P root ["pigeonhub_client.wasm"]) <> stat_ok ->
      missing_accepted (@os_path_join P root ["pigeonhub_client.wasm"]) w ->
      exists w',
        @embed_wasm P S w = Returned tt w' /\
        stdout w'
        = stdout w +:+ "WARNING: WASM file not found at "
            +:+ @os_path_join P root ["pigeonhub_client.wasm"] +:+ nl
            +:+ unavailable_text +:+ nl /\
        env_lists w' = env_lists w)) /\
  (forall r : string,
     @wasm_file posixpath (r +:+ "/") = r +:+ "/" +:+ "pigeonhub_client.wasm") /\
  (forall root : string,
     root <> EmptyString -> (forall r, root <> r +:+ "/") ->
     @wasm_file posixpath root = root +:+ "/" +:+ "pigeonhub_client.wasm") /\
  (forall (l : ascii) (rest : string),
     rest <> EmptyString ->
     @wasm_file ntpath (String l (String ":" rest))
     = String l (String ":" rest)
         +:+ (if NtPath.ends_with_sep rest then EmptyString
              else String backslash EmptyString)
         +:+ "pigeonhub_client.wasm").
Proof.
  split; [| split; [| split]].
  - intros P S w root Hroot. split.
    + intros Hok Hacc.
      exists (found_world (@wasm_file P root) w).
      rewrite flags_found_link, flags_found_build.
      split; [now apply embed_wasm_found | repeat split].
    + intros Hno Hacc.
      exists (missing_world (@wasm_file P root) w).
      split; [now apply embed_wasm_missing | repeat split].
  - intros r. now apply posix_join_trailing.
  - intros root Hne Hsep. now apply posix_join_plain.
  - intros l rest Hrest. now apply ntpath_join_drive_letter.
Qed.

(** ** The compile flag on its way to the compiler *)

Lemma shlex_plain_char_inv c :
  Shlex.plain_char c = true ->
  Shlex.is_whitespace c = false /\ Shlex.is_quote c = false
  /\ Ascii.eqb c backslash = false.
Proof.
  unfold Shlex.plain_char. rewrite !andb_true_iff, !negb_true_iff. tauto.
Qed.

Lemma shlex_run_word_plain s tok rest :
  Shlex.plain s = true ->
  Shlex.run Shlex.Word tok (s +:+ rest) = Shlex.run Shlex.Word (tok +:+ s) rest.
Proof.
  revert tok. induction s as [| c s IH]; intros tok Hs.
  - now rewrite append_empty, append_empty_r.
  - unfold Shlex.plain in Hs. cbn [all_chars] in Hs.
    apply andb_true_iff in Hs as [Hc Hs].
    apply shlex_plain_char_inv in Hc as (Hw & Hq & Hb).
    rewrite append_String. cbn [Shlex.run]. rewrite Hw, Hq, Hb.
    rewrite (IH _ Hs). unfold Shlex.push. now rewrite append_assoc.
Qed.

Lemma shlex_run_blank_plain c s rest :
  Shlex.plain (String c s) = true ->
  Shlex.run Shlex.Blank EmptyString (String c s +:+ rest)
  = Shlex.run Shlex.Word (String c s) rest.
Proof.
  intros Hs. unfold Shlex.plain in Hs. cbn [all_chars] in Hs.
  apply andb_true_iff in Hs as [Hc Hs].
  apply shlex_plain_char_inv in Hc as (Hw & Hq & Hb).
  rewrite append_String. cbn [Shlex.run]. rewrite Hw, Hq, Hb.
  now rewrite (shlex_run_word_plain s _ rest Hs).
Qed.

Lemma shlex_run_escaped_quote tok rest :
  Shlex.run Shlex.Word tok (escaped_quote +:+ rest)
  = Shlex.run Shlex.Word (tok +:+ String dquote EmptyString) rest.
Proof. reflexivity. Qed.

(** The flag of a path that [shlex] takes as it is splits into one word:
    the flag with its two escaped quotes turned into quotes. *)
Lemma shlex_split_define_entry path :
  Shlex.plain path = true ->
  Shlex.split (define_entry path)
  = split_words
      [ "-DWASM_BINARY_PATH=" +:+ String dquote (path +:+ String dquote EmptyString) ].
Proof.
  intros Hpath. unfold Shlex.split, define_entry.
  rewrite (shlex_run_blank_plain "-" "DWASM_BINARY_PATH=") by reflexivity.
  rewrite shlex_run_escaped_quote.
  rewrite (shlex_run_word_plain path) by exact Hpath.
  rewrite <- (append_empty_r escaped_quote), shlex_run_escaped_quote.
  cbn [Shlex.run]. rewrite !append_assoc. reflexivity.
Qed.

Lemma clex_plain_of_shlex_plain s :
  Shlex.plain s = true -> CLex.plain s = true.
Proof.
  unfold Shlex.plain. induction s as [| c s IH]; [reflexivity |].
  cbn [all_chars CLex.plain]. rewrite !andb_true_iff. intros [Hc Hs].
  split; [| now apply IH].
  apply shlex_plain_char_inv in Hc as (Hw & Hq & Hb).
  unfold Shlex.is_whitespace in Hw. unfold Shlex.is_quote in Hq.
  rewrite !orb_false_iff in Hw, Hq.
  destruct Hw as (_ & Hnl). destruct Hq as [_ Hdq].
  unfold CLex.plain_char. now rewrite Hdq, Hnl, Hb.
Qed.

Lemma plain_char_inv c :
  CLex.plain_char c = true ->
  Ascii.eqb c dquote = false /\ Ascii.eqb c newline = false
  /\ Ascii.eqb c backslash = false.
Proof.
  unfold CLex.plain_char. rewrite !andb_true_iff, !negb_true_iff. tauto.
Qed.

Lemma literal_tail_plain s :
  CLex.plain s = true -> CLex.literal_tail (s +:+ String dquote EmptyString) = true.
Proof.
  induction s as [| c s IH]; intros Hs.
  - reflexivity.
  - cbn [CLex.plain] in Hs. apply andb_true_iff in Hs as [Hc Hs].
    apply plain_char_inv in Hc as (Hq & Hn & Hb).
    rewrite append_String. cbn [CLex.literal_tail]. rewrite Hq, Hn, Hb.
    now apply IH.
Qed.

(** The define of a path that [shlex] takes as it is. *)
Lemma ParseFlags_define_entry path :
  Shlex.plain path = true ->
  ParseFlags_define (define_entry path)
  = define_recorded "WASM_BINARY_PATH"
      (Some (String dquote (path +:+ String dquote EmptyString))) /\
  CLex.is_string_literal (String dquote (path +:+ String dquote EmptyString))
  = true.
Proof.
  intros Hpath. split.
  - unfold ParseFlags_define. now rewrite shlex_split_define_entry.
  - cbn [CLex.is_string_literal].
    now rewrite literal_tail_plain by now apply clex_plain_of_shlex_plain.
Qed.


(** * Further properties of the hook *)

Section Frame.

Context `{OsPath} `{SConsSubst}.

Lemma only_adds_refl w : only_adds w w.
Proof.
  repeat split; auto.
  exists EmptyString. now rewrite append_empty_r.
Qed.

Lemma only_adds_trans w1 w2 w3 :
  only_adds w1 w2 -> only_adds w2 w3 -> only_adds w1 w3.
Proof.
  intros (Hv1 & Hf1 & Hc1 & Hp1 & [a1 Ho1] & Hk1)
         (Hv2 & Hf2 & Hc2 & Hp2 & [a2 Ho2] & Hk2).
  repeat split; try congruence.
  - intros key. etransitivity; [apply Hp1 | apply Hp2].
  - exists (a1 +:+ a2). now rewrite Ho2, Ho1, append_assoc.
  - intros key Hl Hb. now rewrite Hk2, Hk1.
Qed.

Lemma adding_ret {A} (a : A) : adding (ret a).
Proof. intros w. apply only_adds_refl. Qed.

Lemma adding_bind {A B} (m : M A) (k : A -> M B) :
  adding m -> (forall a, adding (k a)) -> adding (bind m k).
Proof.
  intros Hm Hk w. unfold bind. specialize (Hm w).
  destruct (m w) as [a w1 | e w1]; cbn [world_after] in *; [| exact Hm].
  eapply only_adds_trans; [exact Hm | apply Hk].
Qed.

Lemma adding_env_subst s : adding (env_subst s).
Proof.
  intros w. unfold env_subst, raise.
  destruct (env_subst_answer s (env_vars w) (env_lists w));
    apply only_adds_refl.
Qed.

Lemma adding_os_path_exists path : adding (os_path_exists path).
Proof.
  intros w. unfold os_path_exists, try_except, bind, os_stat, raise, ret.
  destruct (fs_stat w path); apply only_adds_refl.
Qed.

Lemma adding_print text : adding (print text).
Proof.
  intros w. unfold print, raise.
  destruct (console w (stdout w) text); [apply only_adds_refl |].
  cbn [world_after]. repeat split; auto. now exists (text +:+ nl).
Qed.

Lemma adding_env_Append key vals :
  key = "LINKFLAGS" \/ key = "BUILD_FLAGS" -> adding (env_Append key vals).
Proof.
  intros Hkey w. unfold env_Append. cbn [world_after].
  split; [reflexivity |]. split; [reflexivity |]. split; [reflexivity |].
  split; [| split].
  - intros k. unfold flags at 2. cbn [env_lists].
    destruct (decide (key = k)) as [-> | Hne].
    + rewrite lookup_insert_eq. now apply prefix_app_r.
    + rewrite lookup_insert_ne by exact Hne. reflexivity.
  - exists EmptyString. cbn [stdout]. now rewrite append_empty_r.
  - intros k Hl Hb. cbn [env_lists]. apply lookup_insert_ne.
    destruct Hkey; congruence.
Qed.

(** X1. However a run ends, by returning or by raising, it has only
    added: every list-valued variable and the text on standard output
    keep what they held in front, the variables other than [LINKFLAGS]
    and [BUILD_FLAGS] are the same, and the string-valued variables, the
    file system and the console are untouched. *)
Theorem run_only_adds w :
  env_vars (world_after (embed_wasm w)) = env_vars w /\
  fs_stat (world_after (embed_wasm w)) = fs_stat w /\
  console (world_after (embed_wasm w)) = console w /\
  (forall key, flags key w `prefix_of` flags key (world_after (embed_wasm w))) /\
  (exists added, stdout (world_after (embed_wasm w)) = stdout w +:+ added) /\
  (forall key, key <> "LINKFLAGS" -> key <> "BUILD_FLAGS" ->
               env_lists (world_after (embed_wasm w)) !! key
               = env_lists w !! key).
Proof.
  revert w. change (adding embed_wasm). unfold embed_wasm.
  apply adding_bind; [apply adding_env_subst | intros project_dir].
  apply adding_bind; [apply adding_os_path_exists | intros [|]].
  - apply adding_bind; [apply adding_print | intros _].
    apply adding_bind; [apply adding_env_Append; now left | intros _].
    apply adding_env_Append; now right.
  - apply adding_bind; [apply adding_print | intros _]. apply adding_print.
Qed.

(** X2. After a run that returned, the list-valued variables are as they
    were exactly when [os.stat] did not succeed on the resolved path: the
    environment is touched if and only if the artifact is there. *)
Theorem environment_kept_iff_missing w w' root :
  embed_wasm w = Returned tt w' ->
  env_subst "$PROJECT_DIR" w = Returned root w ->
  (env_lists w' = env_lists w <-> fs_stat w (wasm_file root) <> stat_ok).
Proof.
  intros Hrun Hroot.
  destruct (world_after_cases w root Hroot)
    as [(Hok & [[_ Hfound] | (e & _ & Hraised)]) | (Hno & Hlists & _)].
  - assert (w' = found_world (wasm_file root) w) as -> by congruence.
    split; [| congruence]. intros Heq.
    assert (Hlen : length (flags "LINKFLAGS" (found_world (wasm_file root) w))
                   = length (flags "LINKFLAGS" w))
      by (unfold flags; now rewrite Heq).
    rewrite flags_found_link, length_app in Hlen. cbn in Hlen. lia.
  - congruence.
  - rewrite Hrun in Hlists. cbn [world_after] in Hlists. tauto.
Qed.

(** X3. After a found-branch run that returned, the list-valued
    variables that are set are those set before together with
    [LINKFLAGS] and [BUILD_FLAGS]; a collection that was not set before
    has been created and holds exactly the new entries. *)
Theorem found_creates_collections w w' root :
  embed_wasm w = Returned tt w' ->
  env_subst "$PROJECT_DIR" w = Returned root w ->
  fs_stat w (wasm_file root) = stat_ok ->
  dom (env_lists w') = {[ "LINKFLAGS"; "BUILD_FLAGS" ]} ∪ dom (env_lists w) /\
  (env_lists w !! "LINKFLAGS" = None ->
   env_lists w' !! "LINKFLAGS"
   = Some [ "-Wl,--embedded-file"; "-Wl," +:+ wasm_file root ]) /\
  (env_lists w !! "BUILD_FLAGS" = None ->
   env_lists w' !! "BUILD_FLAGS" = Some [ define_entry (wasm_file root) ]).
Proof.
  intros Hrun Hroot Hok.
  assert (w' = found_world (wasm_file root) w) as ->.
  { destruct (world_after_cases w root Hroot)
      as [(_ & [[_ Hfound] | (e & _ & Hraised)]) | (Hno & _)]; congruence. }
  cbn [env_lists found_world]. split; [| split].
  - rewrite !dom_insert_L. apply set_eq. intros key.
    rewrite !elem_of_union. tauto.
  - intros Hnone. rewrite lookup_insert_ne by discriminate.
    rewrite lookup_insert_eq. unfold flags. now rewrite Hnone.
  - intros Hnone. rewrite lookup_insert_eq. unfold flags. now rewrite Hnone.
Qed.

Lemma env_subst_of_answer w s root :
  env_subst_answer s (env_vars w) (env_lists w) = subst_returns root ->
  env_subst s w = Returned root w.
Proof. intros Hans. unfold env_subst. now rewrite Hans. Qed.

(** X4. When the project root does not depend on the list-valued
    variables, the artifact is there and the console takes the
    informational line whatever has been written, [n] runs in a row add
    [n] copies of the linker pair and of the define and write the line
    [n] times: nothing is ever recognised as already added. *)
Theorem run_times_found n w root :
  (forall lists,
     env_subst_answer "$PROJECT_DIR" (env_vars w) lists = subst_returns root) ->
  fs_stat w (wasm_file root) = stat_ok ->
  (forall out, console w out (found_text (wasm_file root)) = None) ->
  exists w',
    run_times n w = Returned tt w' /\
    flags "LINKFLAGS" w'
    = flags "LINKFLAGS" w
        ++ concat (replicate n
             [ "-Wl,--embedded-file"; "-Wl," +:+ wasm_file root ]) /\
    flags "BUILD_FLAGS" w'
    = flags "BUILD_FLAGS" w ++ replicate n (define_entry (wasm_file root)) /\
    stdout w'
    = stdout w
        +:+ text_times n ("Embedding WASM binary: " +:+ wasm_file root +:+ nl).
Proof.
  revert w. induction n as [| n IH]; intros w Hroot Hok Hout.
  - exists w. cbn. now rewrite !app_nil_r, append_empty_r.
  - assert (Hrun : embed_wasm w = Returned tt (found_world (wasm_file root) w)).
    { apply embed_wasm_found; [| exact Hok | apply Hout].
      apply env_subst_of_answer, Hroot. }
    destruct (IH (found_world (wasm_file root) w) Hroot Hok Hout)
      as (w' & Hrest & Hl & Hb & Hstd).
    exists w'. split; [| split; [| split]].
    + cbn [run_times]. unfold bind. now rewrite Hrun.
    + rewrite Hl, flags_found_link, <- app_assoc. reflexivity.
    + rewrite Hb, flags_found_build, <- app_assoc. reflexivity.
    + rewrite Hstd. cbn [stdout found_world text_times].
      rewrite !append_assoc. reflexivity.
Qed.

(** X5. When the project root does not depend on the list-valued
    variables, the artifact is not there and the console takes the two
    warning lines whatever has been written, [n] runs in a row leave
    every list-valued variable as it was and write the warning [n]
    times. *)
Theorem run_times_missing n w root :
  (forall lists,
     env_subst_answer "$PROJECT_DIR" (env_vars w) lists = subst_returns root) ->
  fs_stat w (wasm_file root) <> stat_ok ->
  (forall out, console w out (warning_text (wasm_file root)) = None) ->
  (forall out, console w out unavailable_text = None) ->
  exists w',
    run_times n w = Returned tt w' /\
    env_lists w' = env_lists w /\
    stdout w'
    = stdout w
        +:+ text_times n
              ("WARNING: WASM file not found at " +:+ wasm_file root +:+ nl
               +:+ "PigeonHub will compile but WASM functionality will not work!"
               +:+ nl).
Proof.
  revert w. induction n as [| n IH]; intros w Hroot Hno Hout1 Hout2.
  - exists w. cbn. now rewrite append_empty_r.
  - assert (Hrun : embed_wasm w = Returned tt (missing_world (wasm_file root) w)).
    { apply embed_wasm_missing; [| exact Hno | split; [apply Hout1 | apply Hout2]].
      apply env_subst_of_answer, Hroot. }
    destruct (IH (missing_world (wasm_file root) w) Hroot Hno Hout1 Hout2)
      as (w' & Hrest & Hl & Hstd).
    exists w'. split; [| split].
    + cbn [run_times]. unfold bind. now rewrite Hrun.
    + now rewrite Hl.
    + rewrite Hstd. cbn [stdout missing_world text_times].
      rewrite !append_assoc. reflexivity.
Qed.

End Frame.

(** ** More on the resolved path on a POSIX platform *)

Lemma wasm_file_posix_cases root :
  @wasm_file posixpath root = root +:+ "pigeonhub_client.wasm" \/
  @wasm_file posixpath root = root +:+ "/" +:+ "pigeonhub_client.wasm".
Proof.
  unfold wasm_file; cbn [os_path_join posixpath].
  unfold posix_join; cbn [fold_left]. unfold posix_join_step.
  change (PyStr.startswith "pigeonhub_client.wasm" "/") with false.
  cbv iota. destruct (PyStr.is_empty root || PyStr.endswith root "/"); auto.
Qed.

(** X7. On a POSIX platform the resolved path always starts with the
    project root and always ends with the file name
    [pigeonhub_client.wasm]; it is longer than the root by the 21
    characters of the name and at most one separator. *)
Theorem wasm_file_keeps_root_and_name root :
  String.prefix root (@wasm_file posixpath root) = true /\
  PyStr.endswith (@wasm_file posixpath root) "pigeonhub_client.wasm" = true /\
  String.length root + 21 <= String.length (@wasm_file posixpath root) /\
  String.length (@wasm_file posixpath root) <= String.length root + 22.
Proof.
  destruct (wasm_file_posix_cases root) as [-> | ->].
  - rewrite prefix_append, endswith_app, length_append. cbn. repeat split; lia.
  - rewrite prefix_append, <- append_assoc, endswith_app, !length_append.
    cbn. repeat split; lia.
Qed.

(** X8. On a POSIX platform a project root given with one trailing
    separator and the same root given without it resolve to the same
    path, provided the root is not empty and does not already end with
    the separator. *)
Theorem wasm_file_trailing_separator root :
  root <> EmptyString ->
  PyStr.endswith root "/" = false ->
  @wasm_file posixpath (root +:+ "/") = @wasm_file posixpath root.
Proof.
  intros Hne Hsep. unfold wasm_file; cbn [os_path_join posixpath].
  rewrite posix_join_trailing by reflexivity.
  unfold posix_join; cbn [fold_left]. unfold posix_join_step.
  change (PyStr.startswith "pigeonhub_client.wasm" "/") with false.
  cbv iota. rewrite Hsep. destruct root; [congruence | reflexivity].
Qed.

(** X9. When [PROJECT_DIR] is not set, the hook on a POSIX platform
    works with the bare file name [pigeonhub_client.wasm], that is, with
    a path relative to the working directory: that is the path it tests
    and the path it hands to the linker.  The console is taken to accept
    what the branch at hand prints. *)
Theorem unset_project_dir_uses_bare_name `{SConsSubst} w :
  env_vars w !! "PROJECT_DIR" = None ->
  match fs_stat w "pigeonhub_client.wasm" with
  | stat_ok => found_accepted "pigeonhub_client.wasm" w
  | _ => missing_accepted "pigeonhub_client.wasm" w
  end ->
  exists w',
    @embed_wasm posixpath _ w = Returned tt w' /\
    match fs_stat w "pigeonhub_client.wasm" with
    | stat_ok =>
        stdout w'
        = stdout w +:+ "Embedding WASM binary: pigeonhub_client.wasm" +:+ nl /\
        flags "LINKFLAGS" w'
        = flags "LINKFLAGS" w
            ++ [ "-Wl,--embedded-file"; "-Wl,pigeonhub_client.wasm" ]
    | _ =>
        stdout w'
        = stdout w +:+ "WARNING: WASM file not found at pigeonhub_client.wasm"
            +:+ nl
            +:+ "PigeonHub will compile but WASM functionality will not work!"
            +:+ nl /\
        env_lists w' = env_lists w
    end.
Proof.
  intros Hunset Hacc.
  assert (Hroot : env_subst "$PROJECT_DIR" w = Returned EmptyString w).
  { apply env_subst_of_answer. unfold env_subst_answer.
    now rewrite String.eqb_refl, Hunset. }
  destruct (fs_stat w "pigeonhub_client.wasm") eqn:E.
  - exists (found_world "pigeonhub_client.wasm" w).
    split; [exact (@embed_wasm_found posixpath _ w EmptyString Hroot E Hacc) |].
    now rewrite flags_found_link.
  - exists (missing_world "pigeonhub_client.wasm" w).
    split; [| now split].
    refine (@embed_wasm_missing posixpath _ w EmptyString Hroot _ Hacc).
    change (@wasm_file posixpath EmptyString) with "pigeonhub_client.wasm".
    congruence.
  - exists (missing_world "pigeonhub_client.wasm" w).
    split; [| now split].
    refine (@embed_wasm_missing posixpath _ w EmptyString Hroot _ Hacc).
    change (@wasm_file posixpath EmptyString) with "pigeonhub_client.wasm".
    congruence.
Qed.

(** X10. On a POSIX platform, when the project root [env.subst] gave
    holds no white space, no quote character of either kind and no
    backslash, the artifact is there and the console takes the
    informational line, the compile flag is one word for [ParseFlags]
    and the value recorded for [WASM_BINARY_PATH] is a string literal of
    C: joining the root with the file name brings in none of these
    characters. *)
Theorem define_is_literal_for_plain_root `{SConsSubst} w root :
  env_subst "$PROJECT_DIR" w = Returned root w ->
  fs_stat w (@wasm_file posixpath root) = stat_ok ->
  found_accepted (@wasm_file posixpath root) w ->
  Shlex.plain root = true ->
  exists w' c v,
    @embed_wasm posixpath _ w = Returned tt w' /\
    flags "BUILD_FLAGS" w' = flags "BUILD_FLAGS" w ++ [c] /\
    ParseFlags_define c = define_recorded "WASM_BINARY_PATH" (Some v) /\
    CLex.is_string_literal v = true.
Proof.
  intros Hroot Hok Hacc Hplain.
  assert (Hpath : Shlex.plain (@wasm_file posixpath root) = true).
  { unfold Shlex.plain in *.
    destruct (wasm_file_posix_cases root) as [-> | ->];
      rewrite all_chars_append, Hplain; reflexivity. }
  destruct (ParseFlags_define_entry _ Hpath) as [Hdef Hlit].
  exists (found_world (@wasm_file posixpath root) w),
    (define_entry (@wasm_file posixpath root)),
    (String dquote (@wasm_file posixpath root +:+ String dquote EmptyString)).
  rewrite flags_found_build.
  split; [exact (@embed_wasm_found posixpath _ w root Hroot Hok Hacc) |].
  repeat split; assumption.
Qed.

(** ** Where the claims fail as they were made *)

(** C1 fails as stated: the project root holds the artifact, but the
    console cannot take the informational line, so the run raises before
    anything is added. *)
Lemma found_branch_refused_appends_nothing :
  @env_subst refusing_subst "$PROJECT_DIR" world_accented
  = Returned root_accented world_accented /\
  fs_stat world_accented (@wasm_file posixpath root_accented) = stat_ok /\
  @embed_wasm posixpath refusing_subst world_accented
  = Raised UnicodeEncodeError world_accented /\
  flags "LINKFLAGS"
    (world_after (@embed_wasm posixpath refusing_subst world_accented))
  = [ "-Os" ] /\
  flags "BUILD_FLAGS"
    (world_after (@embed_wasm posixpath refusing_subst world_accented))
  = [].
Proof. repeat split. Qed.

(** C4 fails as stated: a run raises when the console cannot take the
    informational line, and it raises when [env.subst] cannot expand the
    value of [PROJECT_DIR]. *)
Lemma embed_wasm_can_raise :
  @embed_wasm posixpath refusing_subst world_accented
  = Raised UnicodeEncodeError world_accented /\
  @embed_wasm posixpath refusing_subst world_unexpandable
  = Raised UserError world_unexpandable.
Proof. split; reflexivity. Qed.


(** C6 fails as stated: the artifact is there, but the console cannot
    take the informational line; two runs in a row raise and leave no
    copy of the entries, let alone two. *)
Lemma twice_can_append_nothing :
  fs_stat world_accented (@wasm_file posixpath root_accented) = stat_ok /\
  (@embed_wasm posixpath refusing_subst ;;
   @embed_wasm posixpath refusing_subst) world_accented
  = Raised UnicodeEncodeError world_accented /\
  flags "LINKFLAGS"
    (world_after
       ((@embed_wasm posixpath refusing_subst ;;
         @embed_wasm posixpath refusing_subst) world_accented))
  = [ "-Os" ] /\
  flags "BUILD_FLAGS"
    (world_after
       ((@embed_wasm posixpath refusing_subst ;;
         @embed_wasm posixpath refusing_subst) world_accented))
  = [].
Proof. repeat split. Qed.

(** C8 fails as stated: for a project root with a new-line in it the
    informational output is two lines, and on a console that cannot take
    the informational line a run writes nothing at all. *)
Lemma console_output_other_forms :
  (exists w',
     @embed_wasm posixpath refusing_subst (built_in root_with_newline)
     = Returned tt w' /\
     line_count (stdout w')
     = line_count (stdout (built_in root_with_newline)) + 2) /\
  stdout (world_after (@embed_wasm posixpath refusing_subst world_accented))
  = stdout world_accented.
Proof.
  split; [| reflexivity].
  exists (found_world (@wasm_file posixpath root_with_newline)
            (built_in root_with_newline)).
  split; [apply embed_wasm_found; reflexivity | reflexivity].
Qed.

(** C9 fails as stated: two worlds with the same project root and the
    same answer of the existence test, one on a console that takes the
    informational line and one on a console that cannot; the first run
    adds the entries, the second adds none. *)
Lemma same_root_other_console :
  @env_subst refusing_subst "$PROJECT_DIR" world_accented_open
  = Returned root_accented world_accented_open /\
  @env_subst refusing_subst "$PROJECT_DIR" world_accented
  = Returned root_accented world_accented /\
  os_path_exists (@wasm_file posixpath root_accented) world_accented_open
  = Returned true world_accented_open /\
  os_path_exists (@wasm_file posixpath root_accented) world_accented
  = Returned true world_accented /\
  flags "LINKFLAGS" world_accented_open = flags "LINKFLAGS" world_accented /\
  flags "LINKFLAGS"
    (world_after (@embed_wasm posixpath refusing_subst world_accented_open))
  = [ "-Os"; "-Wl,--embedded-file";
      "-Wl," +:+ @wasm_file posixpath root_accented ] /\
  flags "LINKFLAGS"
    (world_after (@embed_wasm posixpath refusing_subst world_accented))
  = [ "-Os" ].
Proof. repeat split. Qed.

(** ** The theorems at work on the sample worlds *)

Lemma found_appends_pair_and_define_witness :
  @env_subst refusing_subst "$PROJECT_DIR" world_built
  = Returned "/home/dev/sketch" world_built /\
  fs_stat world_built (@wasm_file posixpath "/home/dev/sketch") = stat_ok /\
  found_accepted (@wasm_file posixpath "/home/dev/sketch") world_built /\
  exists w' l1 l2 c,
    @embed_wasm posixpath refusing_subst world_built = Returned tt w' /\
    flags "LINKFLAGS" w' = flags "LINKFLAGS" world_built ++ [l1; l2] /\
    length (flags "LINKFLAGS" w') = length (flags "LINKFLAGS" world_built) + 2 /\
    flags "BUILD_FLAGS" w' = flags "BUILD_FLAGS" world_built ++ [c] /\
    length (flags "BUILD_FLAGS" w') = length (flags "BUILD_FLAGS" world_built) + 1 /\
    c = "-DWASM_BINARY_PATH="
          +:+ String backslash
                (String dquote (@wasm_file posixpath "/home/dev/sketch"))
          +:+ String backslash (String dquote EmptyString).
Proof.
  split; [reflexivity | split; [reflexivity | split; [reflexivity |]]].
  apply (@found_appends_pair_and_define posixpath refusing_subst world_built
           "/home/dev/sketch"); reflexivity.
Defined.

Lemma missing_appends_nothing_witness :
  @env_subst refusing_subst "$PROJECT_DIR" world_clean
  = Returned "/home/dev/sketch" world_clean /\
  fs_stat world_clean (@wasm_file posixpath "/home/dev/sketch") <> stat_ok /\
  flags "LINKFLAGS"
    (world_after (@embed_wasm posixpath refusing_subst world_clean))
  = flags "LINKFLAGS" world_clean /\
  flags "BUILD_FLAGS"
    (world_after (@embed_wasm posixpath refusing_subst world_clean))
  = flags "BUILD_FLAGS" world_clean /\
  env_lists (world_after (@embed_wasm posixpath refusing_subst world_clean))
  = env_lists world_clean /\
  (missing_accepted (@wasm_file posixpath "/home/dev/sketch") world_clean ->
   @embed_wasm posixpath refusing_subst world_clean
   = Returned tt
       (world_after (@embed_wasm posixpath refusing_subst world_clean))).
Proof.
  split; [reflexivity | split; [discriminate |]].
  apply (@missing_appends_nothing posixpath refusing_subst world_clean
           "/home/dev/sketch"); [reflexivity | discriminate].
Defined.

Lemma embed_wasm_returns_witness :
  @env_subst refusing_subst "$PROJECT_DIR" world_clean
  = Returned "/home/dev/sketch" world_clean /\
  (fs_stat world_clean (@wasm_file posixpath "/home/dev/sketch") = stat_ok ->
   found_accepted (@wasm_file posixpath "/home/dev/sketch") world_clean) /\
  (fs_stat world_clean (@wasm_file posixpath "/home/dev/sketch") <> stat_ok ->
   missing_accepted (@wasm_file posixpath "/home/dev/sketch") world_clean) /\
  exists w', @embed_wasm posixpath refusing_subst world_clean = Returned tt w'.
Proof.
  split; [reflexivity |].
  split; [intros _; reflexivity |].
  split; [intros _; split; reflexivity |].
  apply (@embed_wasm_returns posixpath refusing_subst world_clean
           "/home/dev/sketch");
    [reflexivity | intros _; reflexivity | intros _; split; reflexivity].
Defined.


Lemma twice_appends_twice_witness :
  @embed_wasm posixpath refusing_subst world_built
  = Returned tt (found_world "/home/dev/sketch/pigeonhub_client.wasm" world_built) /\
  @env_subst refusing_subst "$PROJECT_DIR" world_built
  = Returned "/home/dev/sketch" world_built /\
  @env_subst refusing_subst "$PROJECT_DIR"
    (found_world "/home/dev/sketch/pigeonhub_client.wasm" world_built)
  = Returned "/home/dev/sketch"
      (found_world "/home/dev/sketch/pigeonhub_client.wasm" world_built) /\
  fs_stat world_built (@wasm_file posixpath "/home/dev/sketch") = stat_ok /\
  found_accepted (@wasm_file posixpath "/home/dev/sketch")
    (found_world "/home/dev/sketch/pigeonhub_client.wasm" world_built) /\
  exists w2,
    (@embed_wasm posixpath refusing_subst ;;
     @embed_wasm posixpath refusing_subst) world_built = Returned tt w2 /\
    flags "LINKFLAGS" w2
    = flags "LINKFLAGS" world_built
        ++ [ "-Wl,--embedded-file";
             "-Wl," +:+ @wasm_file posixpath "/home/dev/sketch" ]
        ++ [ "-Wl,--embedded-file";
             "-Wl," +:+ @wasm_file posixpath "/home/dev/sketch" ] /\
    flags "BUILD_FLAGS" w2
    = flags "BUILD_FLAGS" world_built
        ++ [ define_entry (@wasm_file posixpath "/home/dev/sketch") ]
        ++ [ define_entry (@wasm_file posixpath "/home/dev/sketch") ].
Proof.
  split; [reflexivity | split; [reflexivity | split; [reflexivity |]]].
  split; [reflexivity | split; [reflexivity |]].
  apply (@twice_appends_twice posixpath refusing_subst world_built
           (found_world "/home/dev/sketch/pigeonhub_client.wasm" world_built)
           "/home/dev/sketch"); reflexivity.
Defined.


Lemma console_output_forms_witness :
  @env_subst refusing_subst "$PROJECT_DIR" world_built
  = Returned "/home/dev/sketch" world_built /\
  exists w',
    @embed_wasm posixpath refusing_subst world_built = Returned tt w' /\
    stdout w'
    = stdout world_built +:+ "Embedding WASM binary: "
        +:+ @wasm_file posixpath "/home/dev/sketch" +:+ nl /\
    (has_char newline (@wasm_file posixpath "/home/dev/sketch") = false ->
     line_count (stdout w') = line_count (stdout world_built) + 1).
Proof.
  split; [reflexivity |].
  exact (proj1 (@console_output_forms posixpath refusing_subst world_built
                  "/home/dev/sketch" eq_refl) eq_refl eq_refl).
Defined.

Lemma embed_wasm_deterministic_witness :
  @env_subst refusing_subst "$PROJECT_DIR" world_built
  = Returned "/home/dev/sketch" world_built /\
  @env_subst refusing_subst "$PROJECT_DIR" world_built_again
  = Returned "/home/dev/sketch" world_built_again /\
  os_path_exists (@wasm_file posixpath "/home/dev/sketch") world_built
  = Returned true world_built /\
  os_path_exists (@wasm_file posixpath "/home/dev/sketch") world_built_again
  = Returned true world_built_again /\
  (found_accepted (@wasm_file posixpath "/home/dev/sketch") world_built /\
   found_accepted (@wasm_file posixpath "/home/dev/sketch") world_built_again) /\
  exists w1' w2' link build text,
    @embed_wasm posixpath refusing_subst world_built = Returned tt w1' /\
    @embed_wasm posixpath refusing_subst world_built_again = Returned tt w2' /\
    flags "LINKFLAGS" w1' = flags "LINKFLAGS" world_built ++ link /\
    flags "LINKFLAGS" w2' = flags "LINKFLAGS" world_built_again ++ link /\
    flags "BUILD_FLAGS" w1' = flags "BUILD_FLAGS" world_built ++ build /\
    flags "BUILD_FLAGS" w2' = flags "BUILD_FLAGS" world_built_again ++ build /\
    stdout w1' = stdout world_built +:+ text /\
    stdout w2' = stdout world_built_again +:+ text.
Proof.
  split; [reflexivity | split; [reflexivity | split; [reflexivity |]]].
  split; [reflexivity | split; [split; reflexivity |]].
  apply (@embed_wasm_deterministic posixpath refusing_subst world_built
           world_built_again "/home/dev/sketch" true);
    [reflexivity | reflexivity | reflexivity | reflexivity | split; reflexivity].
Defined.

Lemma found_only_appends_witness :
  @env_subst refusing_subst "$PROJECT_DIR" world_built
  = Returned "/home/dev/sketch" world_built /\
  fs_stat world_built (@wasm_file posixpath "/home/dev/sketch") = stat_ok /\
  found_accepted (@wasm_file posixpath "/home/dev/sketch") world_built /\
  exists w' c,
    @embed_wasm posixpath refusing_subst world_built = Returned tt w' /\
    flags "LINKFLAGS" w'
    = flags "LINKFLAGS" world_built
        ++ [ "-Wl,--embedded-file";
             "-Wl," +:+ @wasm_file posixpath "/home/dev/sketch" ] /\
    flags "BUILD_FLAGS" w' = flags "BUILD_FLAGS" world_built ++ [c].
Proof.
  split; [reflexivity | split; [reflexivity | split; [reflexivity |]]].
  exact (proj2 (proj2 (proj2 (proj2 (proj2
           (@found_only_appends posixpath refusing_subst world_built
              "/home/dev/sketch" eq_refl eq_refl))))) eq_refl).
Defined.

(** ** The further properties at work on the sample worlds *)

Lemma environment_kept_iff_missing_witness :
  @embed_wasm posixpath refusing_subst world_clean
  = Returned tt (missing_world "/home/dev/sketch/pigeonhub_client.wasm" world_clean) /\
  @env_subst refusing_subst "$PROJECT_DIR" world_clean
  = Returned "/home/dev/sketch" world_clean /\
  (env_lists (missing_world "/home/dev/sketch/pigeonhub_client.wasm" world_clean)
   = env_lists world_clean
   <-> fs_stat world_clean (@wasm_file posixpath "/home/dev/sketch") <> stat_ok).
Proof.
  split; [reflexivity | split; [reflexivity |]].
  apply (@environment_kept_iff_missing posixpath refusing_subst world_clean);
    reflexivity.
Defined.

Lemma found_creates_collections_witness :
  @embed_wasm posixpath refusing_subst world_built
  = Returned tt (found_world "/home/dev/sketch/pigeonhub_client.wasm" world_built) /\
  @env_subst refusing_subst "$PROJECT_DIR" world_built
  = Returned "/home/dev/sketch" world_built /\
  fs_stat world_built (@wasm_file posixpath "/home/dev/sketch") = stat_ok /\
  dom (env_lists (found_world "/home/dev/sketch/pigeonhub_client.wasm" world_built))
  = {[ "LINKFLAGS"; "BUILD_FLAGS" ]} ∪ dom (env_lists world_built) /\
  (env_lists world_built !! "LINKFLAGS" = None ->
   env_lists (found_world "/home/dev/sketch/pigeonhub_client.wasm" world_built)
     !! "LINKFLAGS"
   = Some [ "-Wl,--embedded-file";
            "-Wl," +:+ @wasm_file posixpath "/home/dev/sketch" ]) /\
  (env_lists world_built !! "BUILD_FLAGS" = None ->
   env_lists (found_world "/home/dev/sketch/pigeonhub_client.wasm" world_built)
     !! "BUILD_FLAGS"
   = Some [ define_entry (@wasm_file posixpath "/home/dev/sketch") ]).
Proof.
  split; [reflexivity | split; [reflexivity | split; [reflexivity |]]].
  apply (@found_creates_collections posixpath refusing_subst world_built);
    reflexivity.
Defined.

Lemma run_times_found_witness :
  (forall lists,
     @env_subst_answer refusing_subst "$PROJECT_DIR" (env_vars world_built) lists
     = subst_returns "/home/dev/sketch") /\
  fs_stat world_built (@wasm_file posixpath "/home/dev/sketch") = stat_ok /\
  (forall out,
     console world_built out
       (found_text (@wasm_file posixpath "/home/dev/sketch")) = None) /\
  exists w',
    @run_times posixpath refusing_subst 3 world_built = Returned tt w' /\
    flags "LINKFLAGS" w'
    = flags "LINKFLAGS" world_built
        ++ concat (replicate 3
             [ "-Wl,--embedded-file";
               "-Wl," +:+ @wasm_file posixpath "/home/dev/sketch" ]) /\
    flags "BUILD_FLAGS" w'
    = flags "BUILD_FLAGS" world_built
        ++ replicate 3 (define_entry (@wasm_file posixpath "/home/dev/sketch")) /\
    stdout w'
    = stdout world_built
        +:+ text_times 3
              ("Embedding WASM binary: "
               +:+ @wasm_file posixpath "/home/dev/sketch" +:+ nl).
Proof.
  split; [intros lists; reflexivity |].
  split; [reflexivity | split; [intros out; reflexivity |]].
  apply (@run_times_found posixpath refusing_subst 3 world_built
           "/home/dev/sketch");
    [intros lists; reflexivity | reflexivity | intros out; reflexivity].
Defined.

Lemma run_times_missing_witness :
  (forall lists,
     @env_subst_answer refusing_subst "$PROJECT_DIR" (env_vars world_clean) lists
     = subst_returns "/home/dev/sketch") /\
  fs_stat world_clean (@wasm_file posixpath "/home/dev/sketch") <> stat_ok /\
  (forall out,
     console world_clean out
       (warning_text (@wasm_file posixpath "/home/dev/sketch")) = None) /\
  (forall out, console world_clean out unavailable_text = None) /\
  exists w',
    @run_times posixpath refusing_subst 2 world_clean = Returned tt w' /\
    env_lists w' = env_lists world_clean /\
    stdout w'
    = stdout world_clean
        +:+ text_times 2
              ("WARNING: WASM file not found at "
               +:+ @wasm_file posixpath "/home/dev/sketch" +:+ nl
               +:+ "PigeonHub will compile but WASM functionality will not work!"
               +:+ nl).
Proof.
  split; [intros lists; reflexivity |].
  split; [discriminate | split; [intros out; reflexivity |]].
  split; [intros out; reflexivity |].
  apply (@run_times_missing posixpath refusing_subst 2 world_clean
           "/home/dev/sketch");
    [intros lists; reflexivity | discriminate | intros out; reflexivity
    | intros out; reflexivity].
Defined.

Lemma wasm_file_trailing_separator_witness :
  "/home/dev/sketch" <> EmptyString /\
  PyStr.endswith "/home/dev/sketch" "/" = false /\
  @wasm_file posixpath ("/home/dev/sketch" +:+ "/")
  = @wasm_file posixpath "/home/dev/sketch".
Proof.
  split; [discriminate | split; [reflexivity |]].
  apply (wasm_file_trailing_separator "/home/dev/sketch");
    [discriminate | reflexivity].
Defined.

Lemma unset_project_dir_uses_bare_name_witness :
  env_vars world_no_root !! "PROJECT_DIR" = None /\
  found_accepted "pigeonhub_client.wasm" world_no_root /\
  exists w',
    @embed_wasm posixpath refusing_subst world_no_root = Returned tt w' /\
    stdout w' = "Embedding WASM binary: pigeonhub_client.wasm" +:+ nl /\
    flags "LINKFLAGS" w'
    = [ "-Os"; "-Wl,--embedded-file"; "-Wl,pigeonhub_client.wasm" ].
Proof.
  split; [reflexivity | split; [reflexivity |]].
  exact (@unset_project_dir_uses_bare_name refusing_subst world_no_root
           eq_refl eq_refl).
Defined.

Lemma define_is_literal_for_plain_root_witness :
  @env_subst refusing_subst "$PROJECT_DIR" world_built
  = Returned "/home/dev/sketch" world_built /\
  fs_stat world_built (@wasm_file posixpath "/home/dev/sketch") = stat_ok /\
  found_accepted (@wasm_file posixpath "/home/dev/sketch") world_built /\
  Shlex.plain "/home/dev/sketch" = true /\
  exists w' c v,
    @embed_wasm posixpath refusing_subst world_built = Returned tt w' /\
    flags "BUILD_FLAGS" w' = flags "BUILD_FLAGS" world_built ++ [c] /\
    ParseFlags_define c = define_recorded "WASM_BINARY_PATH" (Some v) /\
    CLex.is_string_literal v = true.
Proof.
  split; [reflexivity | split; [reflexivity | split; [reflexivity |]]].
  split; [reflexivity |].
  apply (@define_is_literal_for_plain_root refusing_subst world_built
           "/home/dev/sketch"); reflexivity.
Defined.
